(** * pdftoexcl: the upload client ([frontend/src/App.js])

    A shallow embedding of the React component [App]: its six state
    cells, its event handlers (as computations over the state that also
    log the effects they perform: toasts, HTTP requests, console output)
    and the part of its render function that draws the preview table.

    Conventions.
    - A JavaScript string is a [string]: a sequence of code units.  The
      embedding covers code units below 256 (Basic Latin and Latin-1), on
      which [toLowerCase] acts unit by unit.
    - [File.size] is a byte count, a natural number ([N]); row and page
      counts and array lengths are [nat].
    - The texts of the toasts are kept as the bytes of the source file.
    - A value that may be [undefined] or [null] is an [option]. *)

From Stdlib Require Import Bool Arith NArith Lia List Ascii String.
From Stdlib Require Import Numbers.DecimalString.
From Stdlib Require Numbers.DecimalNat Numbers.DecimalFacts.
Import ListNotations.

Local Open Scope string_scope.
Local Open Scope list_scope.
Local Open Scope nat_scope.

(** ** JavaScript strings *)

Module JsString.

(** [String.prototype.toLowerCase] on one code unit below 256:
    [A]-[Z] and the Latin-1 capitals U+00C0-U+00DE (U+00D7, the
    multiplication sign, apart) move up by 32; the rest is unchanged. *)
Definition lowerUnit (c : ascii) : ascii :=
  let n := N_of_ascii c in
  if ((65 <=? n) && (n <=? 90))%N
     || ((192 <=? n) && (n <=? 222) && negb (n =? 215))%N
  then ascii_of_N (n + 32)
  else c.

Fixpoint toLowerCase (s : string) : string :=
  match s with
  | EmptyString => EmptyString
  | String c s' => String (lowerUnit c) (toLowerCase s')
  end.

(** [s.endsWith(searchString)] with the default end position:
    [start = len - searchLength]; [false] when [start < 0]; otherwise the
    code units of [s] from [start] are compared with [searchString]. *)
Definition endsWith (s searchString : string) : bool :=
  let len := String.length s in
  let searchLength := String.length searchString in
  if (len <? searchLength)%nat then false
  else String.eqb (substring (len - searchLength) searchLength s) searchString.

(** [s.replace(searchValue, replaceValue)] where both are strings and
    [replaceValue] holds no [$]: the FIRST occurrence of [searchValue]
    (found by an exact, case-sensitive comparison from position 0) is
    replaced; without an occurrence [s] is returned as it is. *)
Definition replace (s searchValue replaceValue : string) : string :=
  match index 0 searchValue s with
  | None => s
  | Some pos =>
      let tailStart := pos + String.length searchValue in
      (substring 0 pos s
         ++ replaceValue
         ++ substring tailStart (String.length s - tailStart) s)%string
  end.

(** A number in a template literal: its decimal digits. *)
Definition ofNat (n : nat) : string :=
  NilZero.string_of_uint (Nat.to_uint n).

(** Truthiness of a string value that may be [undefined]. *)
Definition truthy (v : option string) : bool :=
  match v with
  | Some s => negb (String.eqb s "")
  | None => false
  end.

(** [v || d] on strings. *)
Definition or_else (v : option string) (d : string) : string :=
  match v with
  | Some s => if String.eqb s "" then d else s
  | None => d
  end.

End JsString.

(** [v || d] on numbers: [undefined] and [0] are falsy. *)
Definition num_or_else (v : option nat) (d : nat) : nat :=
  match v with
  | Some 0 => d
  | Some n => n
  | None => d
  end.

(** ** Data *)

(** What the component reads of a browser [File]. *)
Record File := mkFile {
  name : string;
  size : N
}.

(** A row of the extraction: its cells, in order. *)
Definition Row := list string.

(** The object stored by [setFileInfo]. *)
Record FileInfo := mkFileInfo {
  id : string;
  originalFilename : string;
  status : string;
  totalRows : nat;
  totalPages : nat
}.

(** The six [useState] cells of [App]. *)
Record AppState := mkState {
  file : option File;
  isDragging : bool;
  isUploading : bool;
  uploadProgress : nat;
  previewData : option (list Row);
  fileInfo : option FileInfo
}.

(** The values passed to [useState]. *)
Definition initialState : AppState :=
  {| file := None; isDragging := false; isUploading := false;
     uploadProgress := 0; previewData := None; fileInfo := None |}.

(** What a handler does besides updating the state. *)
Inductive Effect :=
| PreventDefault
| ToastError (title description : string)
| ToastSuccess (title description : string)
| ConsoleError (label : string)
| AxiosPost (url : string) (payload : File)
| AxiosDelete (url : string)
| WindowOpen (url target : string).

Definition isRequest (e : Effect) : bool :=
  match e with AxiosPost _ _ | AxiosDelete _ | WindowOpen _ _ => true | _ => false end.

(** ** Handlers: state passing with an effect log *)

Definition Handler (A : Type) : Type := AppState -> A * AppState * list Effect.

Definition ret {A} (a : A) : Handler A := fun s => (a, s, []).

Definition bind {A B} (m : Handler A) (k : A -> Handler B) : Handler B :=
  fun s =>
    let '(a, s1, log1) := m s in
    let '(b, s2, log2) := k a s1 in
    (b, s2, log1 ++ log2).

Declare Scope handler_scope.
Delimit Scope handler_scope with handler.
Notation "x <- m ;; k" := (bind m (fun x => k))
  (at level 61, m at next level, right associativity) : handler_scope.
Notation "m ;; k" := (bind m (fun _ => k))
  (at level 61, right associativity) : handler_scope.
Local Open Scope handler_scope.

Definition emit (e : Effect) : Handler unit := fun s => (tt, s, [e]).
Definition readState : Handler AppState := fun s => (s, s, []).

Definition stateAfter {A} (m : Handler A) (s : AppState) : AppState := snd (fst (m s)).
Definition effectsOf {A} (m : Handler A) (s : AppState) : list Effect := snd (m s).

(** The setters returned by [useState]. *)
Definition setFile (v : option File) : Handler unit :=
  fun s => (tt, {| file := v; isDragging := isDragging s; isUploading := isUploading s;
                   uploadProgress := uploadProgress s; previewData := previewData s;
                   fileInfo := fileInfo s |}, []).
Definition setIsDragging (v : bool) : Handler unit :=
  fun s => (tt, {| file := file s; isDragging := v; isUploading := isUploading s;
                   uploadProgress := uploadProgress s; previewData := previewData s;
                   fileInfo := fileInfo s |}, []).
Definition setIsUploading (v : bool) : Handler unit :=
  fun s => (tt, {| file := file s; isDragging := isDragging s; isUploading := v;
                   uploadProgress := uploadProgress s; previewData := previewData s;
                   fileInfo := fileInfo s |}, []).
Definition setUploadProgress (v : nat) : Handler unit :=
  fun s => (tt, {| file := file s; isDragging := isDragging s; isUploading := isUploading s;
                   uploadProgress := v; previewData := previewData s;
                   fileInfo := fileInfo s |}, []).
Definition setPreviewData (v : option (list Row)) : Handler unit :=
  fun s => (tt, {| file := file s; isDragging := isDragging s; isUploading := isUploading s;
                   uploadProgress := uploadProgress s; previewData := v;
                   fileInfo := fileInfo s |}, []).
Definition setFileInfo (v : option FileInfo) : Handler unit :=
  fun s => (tt, {| file := file s; isDragging := isDragging s; isUploading := isUploading s;
                   uploadProgress := uploadProgress s; previewData := previewData s;
                   fileInfo := v |}, []).

(** [const MAX_FILE_SIZE = 10 * 1024 * 1024;] *)
Definition MAX_FILE_SIZE : N := 10 * 1024 * 1024.

Definition wrongTypeToast : Effect :=
  ToastError "Solo se permiten archivos PDF"
             "Por favor selecciona un archivo con extensión .pdf".

Definition tooLargeToast : Effect :=
  ToastError "Archivo demasiado grande" "El tamaño máximo permitido es 10MB".

Definition resetState : Handler unit :=
  setFile None ;;
  setPreviewData None ;;
  setFileInfo None ;;
  setUploadProgress 0.

Definition handleDragOver : Handler unit :=
  emit PreventDefault ;;
  setIsDragging true.

Definition handleDragLeave : Handler unit :=
  emit PreventDefault ;;
  setIsDragging false.

Definition validateAndSetFile (selectedFile : File) : Handler unit :=
  if negb (JsString.endsWith (JsString.toLowerCase (name selectedFile)) ".pdf") then
    emit wrongTypeToast
  else if (MAX_FILE_SIZE <? size selectedFile)%N then
    emit tooLargeToast
  else
    setFile (Some selectedFile) ;;
    setPreviewData None ;;
    setFileInfo None.

(** [e.dataTransfer.files] is the list [files]; [files[0]] of an empty
    list is [undefined]. *)
Definition handleDrop (files : list File) : Handler unit :=
  emit PreventDefault ;;
  setIsDragging false ;;
  match nth_error files 0 with
  | Some droppedFile => validateAndSetFile droppedFile
  | None => ret tt
  end.

Definition handleFileSelect (files : list File) : Handler unit :=
  match nth_error files 0 with
  | Some selectedFile => validateAndSetFile selectedFile
  | None => ret tt
  end.

(** ** Handlers that talk to the backend *)

(** The body of a successful [POST /api/upload] response. *)
Record UploadResponse := mkResponse {
  r_id : string;
  r_original_filename : string;
  r_status : string;
  r_total_rows : nat;
  r_total_pages : nat;
  r_preview_data : list Row
}.

(** How the awaited [axios.post] settles: it resolves with the response
    data, or it rejects with an error whose [response?.data?.detail] is
    the given value ([None] when any link of the chain is missing). *)
Inductive UploadOutcome :=
| UploadResolved (data : UploadResponse)
| UploadRejected (detail : option string).

(** How the awaited [axios.delete] settles.  A rejection covers a network
    failure and any error status, 404 for an unknown identifier included. *)
Inductive DeleteOutcome :=
| DeleteResolved
| DeleteRejected.

Fixpoint forEach {A} (l : list A) (f : A -> Handler unit) : Handler unit :=
  match l with
  | [] => ret tt
  | x :: l' => f x ;; forEach l' f
  end.

Section Backend.

(** [process.env.REACT_APP_BACKEND_URL], fixed when the bundle is built. *)
Variable BACKEND_URL : string.

Definition API : string := (BACKEND_URL ++ "/api")%string.

Definition fileInfoOfResponse (data : UploadResponse) : FileInfo :=
  {| id := r_id data;
     originalFilename := r_original_filename data;
     status := r_status data;
     totalRows := r_total_rows data;
     totalPages := r_total_pages data |}.

(** The [catch] block of [uploadFile]. *)
Definition uploadFile_catch (detail : option string) : Handler unit :=
  emit (ConsoleError "Upload error:") ;;
  let message := JsString.or_else detail "Error al procesar el archivo" in
  emit (ToastError "Error" message) ;;
  resetState.

(** The statements of the [try] block after the [await]. *)
Definition uploadFile_then (data : UploadResponse) : Handler unit :=
  setFileInfo (Some (fileInfoOfResponse data)) ;;
  setPreviewData (Some (r_preview_data data)) ;;
  emit (ToastSuccess "PDF procesado correctamente"
          ("Se encontraron " ++ JsString.ofNat (r_total_rows data)
           ++ " filas en " ++ JsString.ofNat (r_total_pages data)
           ++ " página(s)")%string).

(** [uploadFile]: [progress] lists the percentages that the
    [onUploadProgress] callback computes while the request is in flight
    (each one [Math.round(loaded * 100 / total)]), [outcome] is how the
    request settles. *)
Definition uploadFile (progress : list nat) (outcome : UploadOutcome) : Handler unit :=
  s <- readState ;;
  match file s with
  | None => ret tt
  | Some f =>
      setIsUploading true ;;
      setUploadProgress 0 ;;
      emit (AxiosPost (API ++ "/upload")%string f) ;;
      forEach progress setUploadProgress ;;
      match outcome with
      | UploadResolved data => uploadFile_then data
      | UploadRejected detail => uploadFile_catch detail
      end ;;
      setIsUploading false
  end.

(** [downloadFile]: [popupOpened] says whether [window.open] returned a
    window. *)
Definition downloadFile (popupOpened : bool) : Handler unit :=
  s <- readState ;;
  match fileInfo s with
  | None => ret tt
  | Some fi =>
      if negb (JsString.truthy (Some (id fi))) then ret tt
      else
        let downloadUrl := (API ++ "/download/" ++ id fi)%string in
        emit (WindowOpen downloadUrl "_blank") ;;
        if popupOpened then
          emit (ToastSuccess "Descarga iniciada"
                  ("Archivo: "
                   ++ JsString.replace (originalFilename fi) ".pdf" ".xlsx")%string)
        else
          emit (ToastError "Popup bloqueado"
                  "Permite popups o haz clic derecho en el botón y selecciona 'Abrir enlace en nueva pestaña'")
  end.

Definition deleteFile (outcome : DeleteOutcome) : Handler unit :=
  s <- readState ;;
  match fileInfo s with
  | None => ret tt
  | Some fi =>
      if JsString.truthy (Some (id fi)) then
        emit (AxiosDelete (API ++ "/file/" ++ id fi)%string) ;;
        match outcome with
        | DeleteResolved => ret tt
        | DeleteRejected => emit (ConsoleError "Delete error:")
        end
      else ret tt
  end ;;
  resetState.

End Backend.

(** ** Rendering the preview *)

(** [l.map((x, i) => f x i)]. *)
Fixpoint mapi_from {A B} (start : nat) (f : A -> nat -> B) (l : list A) : list B :=
  match l with
  | [] => []
  | x :: l' => f x start :: mapi_from (S start) f l'
  end.

Definition mapi {A B} (f : A -> nat -> B) (l : list A) : list B := mapi_from 0 f l.

(** [getHeaders]: [Math.max(...)] runs on a non-empty array of lengths
    only, where it is the largest of them. *)
Definition getHeaders (s : AppState) : list string :=
  match previewData s with
  | None => []
  | Some rows =>
      if List.length rows =? 0 then []
      else
        let maxCols := list_max (map (@List.length string) rows) in
        map (fun i => ("Columna " ++ JsString.ofNat (i + 1))%string) (seq 0 maxCols)
  end.

(** [{row[colIdx] || ''}] *)
Definition renderCell (row : Row) (colIdx : nat) : string :=
  JsString.or_else (nth_error row colIdx) "".

(** The preview section, as far as its content goes: the two numbers of
    the caption ([Mostrando X de Y filas]), the cells of the header row and
    the cells of each body row. *)
Record PreviewSection := mkPreview {
  captionShown : nat;
  captionTotal : nat;
  headerCells : list string;
  bodyRows : list (list string)
}.

(** [{previewData && previewData.length > 0 && ( ... )}]: [None] when the
    section is not rendered. *)
Definition renderPreview (s : AppState) : option PreviewSection :=
  match previewData s with
  | None => None
  | Some rows =>
      if 0 <? List.length rows then
        Some {| captionShown := Nat.min (List.length rows) 100;
                captionTotal := num_or_else (option_map totalRows (fileInfo s)) (List.length rows);
                headerCells := mapi (fun header _ => header) (getHeaders s);
                bodyRows :=
                  mapi (fun row _ =>
                          mapi (fun _ colIdx => renderCell row colIdx) (getHeaders s))
                       (firstn 100 rows) |}
      else None
  end.

(** The body rows on screen; none when the section is not rendered. *)
Definition renderedRows (s : AppState) : list (list string) :=
  match renderPreview s with
  | Some sec => bodyRows sec
  | None => []
  end.

(** ** States named in the statements below *)

(** [s] with the three cells that an accepted selection writes. *)
Definition selectedState (f : File) (s : AppState) : AppState :=
  {| file := Some f; isDragging := isDragging s; isUploading := isUploading s;
     uploadProgress := uploadProgress s; previewData := None; fileInfo := None |}.

(** [s] with the four cells that [resetState] writes. *)
Definition clearedState (s : AppState) : AppState :=
  {| file := None; isDragging := isDragging s; isUploading := isUploading s;
     uploadProgress := 0; previewData := None; fileInfo := None |}.

Definition isToast (e : Effect) : bool :=
  match e with ToastError _ _ | ToastSuccess _ _ => true | _ => false end.

(** ** What is on screen besides the table *)

(** The conditional blocks of the JSX, one flag each.  [null] is falsy; an
    array, even an empty one, and an object are truthy. *)
Record Controls := mkControls {
  uploadZone : bool;
  progressBar : bool;
  actionButtons : bool;
  fileInfoPanel : bool;
  previewSection : bool;
  downloadActions : bool
}.

Definition isNull {A} (v : option A) : bool :=
  match v with None => true | Some _ => false end.

Definition visibleControls (s : AppState) : Controls :=
  {| uploadZone := isNull (previewData s);
     progressBar := isUploading s;
     actionButtons :=
       negb (isNull (file s)) && isNull (previewData s) && negb (isUploading s);
     fileInfoPanel := negb (isNull (fileInfo s));
     previewSection :=
       match previewData s with
       | Some rows => 0 <? List.length rows
       | None => false
       end;
     downloadActions := negb (isNull (previewData s)) |}.

(** The text inside the upload zone: the prompt while no file is selected,
    then the name of the selected file; [None] when the zone is not drawn. *)
Definition uploadZoneText (s : AppState) : option string :=
  if isNull (previewData s) then
    match file s with
    | None => Some (if isDragging s then "Suelta el archivo aquí"
                    else "Arrastra tu PDF aquí")
    | Some f => Some (name f)
    end
  else None.

(** ** Sessions: sequences of events *)

(** The two checks of [validateAndSetFile], as one test. *)
Definition passesValidation (f : File) : bool :=
  JsString.endsWith (JsString.toLowerCase (name f)) ".pdf"
  && negb (MAX_FILE_SIZE <? size f)%N.

Section Session.

Variable BACKEND_URL : string.

(** [uploadFile] up to its [await]. *)
Definition uploadFile_begin : Handler unit :=
  s <- readState ;;
  match file s with
  | None => ret tt
  | Some f =>
      setIsUploading true ;;
      setUploadProgress 0 ;;
      emit (AxiosPost (API BACKEND_URL ++ "/upload")%string f)
  end.

(** [uploadFile] from the moment the request settles: the rest of the
    [try] block or the [catch] block, then [finally]. *)
Definition uploadFile_settle (outcome : UploadOutcome) : Handler unit :=
  match outcome with
  | UploadResolved data => uploadFile_then data
  | UploadRejected detail => uploadFile_catch detail
  end ;;
  setIsUploading false.

(** What can happen to the component.  An upload is three kinds of event
    (the click, each progress callback, the settling of the request), so
    that other events may fall in between. *)
Inductive Event :=
| DragOver
| DragLeave
| Drop (files : list File)
| FileSelect (files : list File)
| CancelClick
| UploadClick
| UploadProgress (percent : nat)
| UploadSettled (outcome : UploadOutcome)
| DownloadClick (popupOpened : bool)
| NewFileClick (outcome : DeleteOutcome).

Definition handle (e : Event) : Handler unit :=
  match e with
  | DragOver => handleDragOver
  | DragLeave => handleDragLeave
  | Drop files => handleDrop files
  | FileSelect files => handleFileSelect files
  | CancelClick => resetState
  | UploadClick => uploadFile_begin
  | UploadProgress percent => setUploadProgress percent
  | UploadSettled outcome => uploadFile_settle outcome
  | DownloadClick popupOpened => downloadFile BACKEND_URL popupOpened
  | NewFileClick outcome => deleteFile BACKEND_URL outcome
  end.

(** The component after a sequence of events, from its initial state. *)
Definition session (events : list Event) : Handler unit := forEach events handle.

End Session.

(** * Properties *)

(** ** Strings *)

Module JsStringFacts.
Import JsString.

Lemma length_append (a b : string) :
  String.length (a ++ b)%string = String.length a + String.length b.
Proof. induction a as [|c a IH]; simpl; [reflexivity | now rewrite IH]. Qed.

Lemma append_empty_r (a : string) : (a ++ "")%string = a.
Proof. induction a as [|c a IH]; simpl; [reflexivity | now rewrite IH]. Qed.

Lemma append_assoc (a b c : string) :
  ((a ++ b) ++ c)%string = (a ++ (b ++ c))%string.
Proof. induction a as [|x a IH]; simpl; [reflexivity | now rewrite IH]. Qed.

Lemma substring_whole (s : string) : substring 0 (String.length s) s = s.
Proof. induction s as [|c s IH]; simpl; [reflexivity | now rewrite IH]. Qed.

Lemma substring_zero_len (n : nat) (s : string) : substring n 0 s = "".
Proof.
  revert n; induction s as [|c s IH]; intros [|n]; simpl; auto.
Qed.

Lemma substring_head (a b : string) :
  substring 0 (String.length a) (a ++ b)%string = a.
Proof.
  induction a as [|c a IH]; simpl.
  - apply (substring_zero_len 0).
  - now rewrite IH.
Qed.

Lemma substring_tail (a b : string) :
  substring (String.length a) (String.length b) (a ++ b)%string = b.
Proof.
  induction a as [|c a IH]; simpl; [apply substring_whole | exact IH].
Qed.

(** Cutting a string at a position inside it loses nothing. *)
Lemma substring_split (s : string) :
  forall n, n <= String.length s ->
    s = (substring 0 n s ++ substring n (String.length s - n) s)%string.
Proof.
  induction s as [|c s IH]; intros [|n] Hn; simpl in *.
  - reflexivity.
  - lia.
  - now rewrite substring_whole.
  - rewrite <- IH by lia. reflexivity.
Qed.

Lemma append_inj_length (a a' b b' : string) :
  String.length a = String.length a' ->
  (a ++ b)%string = (a' ++ b')%string -> a = a' /\ b = b'.
Proof.
  revert a'; induction a as [|c a IH]; intros [|c' a'] Hlen Heq;
    simpl in *; try discriminate.
  - now split.
  - injection Heq as -> Heq. destruct (IH a') as [-> ->]; [lia | exact Heq | now split].
Qed.

Lemma split_at (s : string) :
  forall k, k <= String.length s ->
    exists a b, s = (a ++ b)%string /\ String.length a = k.
Proof.
  induction s as [|c s IH]; intros [|k] Hk; simpl in *.
  - now exists "", "".
  - lia.
  - now exists "", (String c s).
  - destruct (IH k) as (a & b & -> & Ha); [lia|].
    exists (String c a), b. simpl. now rewrite Ha.
Qed.

(** [endsWith] decides the suffix relation. *)
Lemma endsWith_suffix (s t : string) :
  endsWith s t = true <-> exists base, s = (base ++ t)%string.
Proof.
  unfold endsWith. split.
  - destruct (Nat.ltb_spec (String.length s) (String.length t)) as [Hlt|Hge];
      [discriminate|].
    intros Heq%String.eqb_eq.
    pose proof (substring_split s (String.length s - String.length t)
                  ltac:(lia)) as Hs.
    replace (String.length s - (String.length s - String.length t))
      with (String.length t) in Hs by lia.
    rewrite Heq in Hs. eauto.
  - intros [base ->]. rewrite length_append.
    destruct (Nat.ltb_spec (String.length base + String.length t) (String.length t));
      [lia|].
    replace (String.length base + String.length t - String.length t)
      with (String.length base) by lia.
    rewrite substring_tail. apply String.eqb_refl.
Qed.

Lemma endsWith_not_suffix (s t : string) :
  endsWith s t = false <-> ~ exists base, s = (base ++ t)%string.
Proof.
  rewrite <- endsWith_suffix. destruct (endsWith s t); split; intros H;
    try reflexivity; try discriminate; congruence.
Qed.

Lemma toLowerCase_length (s : string) :
  String.length (toLowerCase s) = String.length s.
Proof. induction s as [|c s IH]; simpl; [reflexivity | now rewrite IH]. Qed.

Lemma toLowerCase_append (a b : string) :
  toLowerCase (a ++ b) = (toLowerCase a ++ toLowerCase b)%string.
Proof. induction a as [|c a IH]; simpl; [reflexivity | now rewrite IH]. Qed.

(** The code units that lowercase to [.], [p], [d] and [f]. *)
Lemma lowerUnit_dot (c : ascii) : lowerUnit c = "."%char <-> c = "."%char.
Proof.
  destruct c as [[] [] [] [] [] [] [] []]; vm_compute; split; congruence.
Qed.

Lemma lowerUnit_p (c : ascii) :
  lowerUnit c = "p"%char <-> c = "p"%char \/ c = "P"%char.
Proof.
  destruct c as [[] [] [] [] [] [] [] []]; vm_compute;
    (split; [intros H; first [discriminate H | now left | now right]
            | intros [H|H]; first [discriminate H | reflexivity]]).
Qed.

Lemma lowerUnit_d (c : ascii) :
  lowerUnit c = "d"%char <-> c = "d"%char \/ c = "D"%char.
Proof.
  destruct c as [[] [] [] [] [] [] [] []]; vm_compute;
    (split; [intros H; first [discriminate H | now left | now right]
            | intros [H|H]; first [discriminate H | reflexivity]]).
Qed.

Lemma lowerUnit_f (c : ascii) :
  lowerUnit c = "f"%char <-> c = "f"%char \/ c = "F"%char.
Proof.
  destruct c as [[] [] [] [] [] [] [] []]; vm_compute;
    (split; [intros H; first [discriminate H | now left | now right]
            | intros [H|H]; first [discriminate H | reflexivity]]).
Qed.

(** A lowercased name ends in [.pdf] exactly when the name itself ends
    in a four-unit extension that lowercases to [.pdf]. *)
Lemma lowercase_suffix_pdf (s : string) :
  endsWith (toLowerCase s) ".pdf" = true <->
  exists base ext, s = (base ++ ext)%string /\ toLowerCase ext = ".pdf".
Proof.
  rewrite endsWith_suffix. split.
  - intros [lbase Hl].
    assert (Hlen : String.length lbase + 4 = String.length s).
    { rewrite <- (toLowerCase_length s), Hl, length_append. reflexivity. }
    destruct (split_at s (String.length lbase)) as (base & ext & -> & Hb); [lia|].
    exists base, ext. split; [reflexivity|].
    rewrite toLowerCase_append in Hl.
    apply append_inj_length in Hl; [tauto|].
    now rewrite toLowerCase_length.
  - intros (base & ext & -> & He).
    exists (toLowerCase base). now rewrite toLowerCase_append, He.
Qed.

(** The extensions that lowercase to [.pdf]: a dot followed by [p], [d],
    [f], each in either case. *)
Lemma lowercase_is_pdf (ext : string) :
  toLowerCase ext = ".pdf" <->
  exists p d f,
    ext = String "." (String p (String d (String f "")))
    /\ (p = "p" \/ p = "P")%char
    /\ (d = "d" \/ d = "D")%char
    /\ (f = "f" \/ f = "F")%char.
Proof.
  split.
  - destruct ext as [|c0 [|c1 [|c2 [|c3 [|c4 r]]]]]; simpl; try discriminate.
    intros H. injection H as H0 H1 H2 H3.
    apply (proj1 (lowerUnit_dot _)) in H0. subst c0.
    exists c1, c2, c3. split; [reflexivity|].
    now rewrite <- lowerUnit_p, <- lowerUnit_d, <- lowerUnit_f.
  - intros (p & d & f & -> & Hp & Hd & Hf). simpl.
    apply (proj2 (lowerUnit_p _)) in Hp. apply (proj2 (lowerUnit_d _)) in Hd.
    apply (proj2 (lowerUnit_f _)) in Hf.
    rewrite Hp, Hd, Hf. reflexivity.
Qed.

End JsStringFacts.

(** ** Selecting a file *)

Lemma validateAndSetFile_run (f : File) (s : AppState) :
  validateAndSetFile f s =
    if negb (JsString.endsWith (JsString.toLowerCase (name f)) ".pdf")
    then (tt, s, [wrongTypeToast])
    else if (MAX_FILE_SIZE <? size f)%N
         then (tt, s, [tooLargeToast])
         else (tt, selectedState f s, []).
Proof.
  unfold validateAndSetFile.
  destruct (JsString.endsWith _ _); simpl; [|reflexivity].
  destruct (MAX_FILE_SIZE <? size f)%N; reflexivity.
Qed.

Lemma MAX_FILE_SIZE_value : MAX_FILE_SIZE = 10485760%N.
Proof. reflexivity. Qed.

(** C1.  The size check of [validateAndSetFile] has an inclusive boundary
    at 10 MiB: a file that passed the extension check is accepted when its
    size is at most [10 * 1024 * 1024] bytes, and is rejected with the
    too-large toast, the state untouched, when its size is above that; the
    too-large toast is never shown for a file of at most 10 MiB. *)
Theorem size_validation_boundary (f : File) (s : AppState) :
  (In tooLargeToast (effectsOf (validateAndSetFile f) s) ->
     (10 * 1024 * 1024 < size f)%N)
  /\ (JsString.endsWith (JsString.toLowerCase (name f)) ".pdf" = true ->
      (size f <= 10 * 1024 * 1024)%N ->
      validateAndSetFile f s = (tt, selectedState f s, []))
  /\ (JsString.endsWith (JsString.toLowerCase (name f)) ".pdf" = true ->
      (10 * 1024 * 1024 < size f)%N ->
      validateAndSetFile f s = (tt, s, [tooLargeToast])).
Proof.
  unfold effectsOf. rewrite validateAndSetFile_run.
  change (10 * 1024 * 1024)%N with MAX_FILE_SIZE.
  destruct (JsString.endsWith _ _); simpl;
    destruct (N.ltb_spec MAX_FILE_SIZE (size f)) as [Hgt|Hle]; simpl.
  all: repeat split; intros; try reflexivity; try discriminate; try lia.
  all: repeat match goal with
       | H : _ \/ _ |- _ => destruct H
       | H : False |- _ => destruct H
       | H : wrongTypeToast = tooLargeToast |- _ => discriminate H
       end; try assumption.
Qed.

(** The two boundary files of C1, run through the handler. *)
Lemma size_validation_boundary_witness :
  validateAndSetFile (mkFile "informe.pdf" (10 * 1024 * 1024)) initialState
    = (tt, selectedState (mkFile "informe.pdf" (10 * 1024 * 1024)) initialState, [])
  /\ validateAndSetFile (mkFile "informe.pdf" (10 * 1024 * 1024 + 1)) initialState
    = (tt, initialState, [tooLargeToast]).
Proof.
  split.
  - refine (proj1 (proj2 (size_validation_boundary _ _)) _ _);
      [reflexivity | vm_compute; discriminate].
  - refine (proj2 (proj2 (size_validation_boundary _ _)) _ _);
      [reflexivity | vm_compute; reflexivity].
Defined.

Lemma extension_check_outcome (f : File) (s : AppState) :
  ((exists base, JsString.toLowerCase (name f) = (base ++ ".pdf")%string)
     <-> ~ In wrongTypeToast (effectsOf (validateAndSetFile f) s))
  /\ (~ (exists base, JsString.toLowerCase (name f) = (base ++ ".pdf")%string) ->
      validateAndSetFile f s = (tt, s, [wrongTypeToast]))
  /\ (forall e, In e (effectsOf (validateAndSetFile f) s) -> isRequest e = false).
Proof.
  unfold effectsOf. rewrite validateAndSetFile_run.
  destruct (JsString.endsWith (JsString.toLowerCase (name f)) ".pdf") eqn:Hends; simpl.
  - apply JsStringFacts.endsWith_suffix in Hends.
    repeat split.
    + intros _ Hin. destruct (MAX_FILE_SIZE <? size f)%N; simpl in Hin;
        [destruct Hin as [Hin|[]]; discriminate Hin | destruct Hin].
    + intros _. exact Hends.
    + intros Hno. now destruct Hno.
    + intros e Hin. destruct (MAX_FILE_SIZE <? size f)%N; simpl in Hin;
        [destruct Hin as [<-|[]]; reflexivity | destruct Hin].
  - apply JsStringFacts.endsWith_not_suffix in Hends.
    repeat split.
    + intros Hyes. now destruct Hends.
    + intros Hno. exfalso. apply Hno. now left.
    + intros e [<-|[]]. reflexivity.
Qed.

(** C2.  [validateAndSetFile] lets a file past its extension check exactly
    when the lowercased name has the suffix [.pdf], that is, when the name
    ends in four code units that lowercase to [.pdf]; every other name
    gets the wrong-type toast and nothing else: the state is as before and
    no request is made. *)
Theorem pdf_extension_check (f : File) (s : AppState) :
  ((exists base, JsString.toLowerCase (name f) = (base ++ ".pdf")%string)
     <-> ~ In wrongTypeToast (effectsOf (validateAndSetFile f) s))
  /\ (~ (exists base, JsString.toLowerCase (name f) = (base ++ ".pdf")%string) ->
      validateAndSetFile f s = (tt, s, [wrongTypeToast]))
  /\ (forall e, In e (effectsOf (validateAndSetFile f) s) -> isRequest e = false)
  /\ ((exists base, JsString.toLowerCase (name f) = (base ++ ".pdf")%string)
      <-> exists base ext,
            name f = (base ++ ext)%string /\ JsString.toLowerCase ext = ".pdf").
Proof.
  destruct (extension_check_outcome f s) as (Hiff & Hreject & Hquiet).
  repeat apply conj; try assumption.
  - apply Hiff.
  - apply Hiff.
  - rewrite <- JsStringFacts.endsWith_suffix.
    apply JsStringFacts.lowercase_suffix_pdf.
  - rewrite <- JsStringFacts.endsWith_suffix.
    apply JsStringFacts.lowercase_suffix_pdf.
Qed.

Lemma pdf_extension_check_witness :
  validateAndSetFile (mkFile "notas.txt" 12) initialState
    = (tt, initialState, [wrongTypeToast]).
Proof.
  refine (proj1 (proj2 (pdf_extension_check _ _)) _).
  apply JsStringFacts.endsWith_not_suffix. reflexivity.
Defined.

(** C10.  A rejected file (wrong extension, or too large) leaves every
    state cell as it was; an accepted one writes the selected file and
    clears the preview data and the file info, and no call ever touches
    the dragging flag, the uploading flag or the upload progress. *)
Theorem validateAndSetFile_frame (f : File) (s : AppState) :
  (JsString.endsWith (JsString.toLowerCase (name f)) ".pdf" = false
     \/ (MAX_FILE_SIZE < size f)%N ->
   stateAfter (validateAndSetFile f) s = s)
  /\ (JsString.endsWith (JsString.toLowerCase (name f)) ".pdf" = true ->
      (size f <= MAX_FILE_SIZE)%N ->
      file (stateAfter (validateAndSetFile f) s) = Some f
      /\ previewData (stateAfter (validateAndSetFile f) s) = None
      /\ fileInfo (stateAfter (validateAndSetFile f) s) = None)
  /\ isDragging (stateAfter (validateAndSetFile f) s) = isDragging s
  /\ isUploading (stateAfter (validateAndSetFile f) s) = isUploading s
  /\ uploadProgress (stateAfter (validateAndSetFile f) s) = uploadProgress s.
Proof.
  unfold stateAfter. rewrite validateAndSetFile_run.
  destruct (JsString.endsWith _ _); simpl;
    destruct (N.ltb_spec MAX_FILE_SIZE (size f)) as [Hgt|Hle]; simpl;
    repeat split; intros; try reflexivity; try discriminate; try lia.
Qed.

Lemma validateAndSetFile_frame_witness :
  stateAfter (validateAndSetFile (mkFile "grande.pdf" 20000000))
             (selectedState (mkFile "previo.pdf" 7) initialState)
    = selectedState (mkFile "previo.pdf" 7) initialState.
Proof.
  refine (proj1 (validateAndSetFile_frame _ _) _).
  right. vm_compute. reflexivity.
Defined.

(** ** Dropping files *)

(** C7.  A drop that carries files hands [files[0]] to
    [validateAndSetFile] and nothing else: whatever follows the first file
    has no influence on the resulting state or on the effects. *)
Theorem handleDrop_first_file_only (f : File) (rest : list File) (s : AppState) :
  handleDrop (f :: rest) s = handleDrop [f] s
  /\ stateAfter (handleDrop (f :: rest)) s
     = stateAfter (validateAndSetFile f) (stateAfter (setIsDragging false) s)
  /\ effectsOf (handleDrop (f :: rest)) s
     = PreventDefault
         :: effectsOf (validateAndSetFile f) (stateAfter (setIsDragging false) s).
Proof.
  unfold handleDrop, stateAfter, effectsOf, bind, emit, setIsDragging. simpl.
  destruct (validateAndSetFile f _) as [[[] s1] log]. simpl. repeat split.
Qed.

(** ** Deleting *)

Lemma resetState_run (s : AppState) : resetState s = (tt, clearedState s, []).
Proof. reflexivity. Qed.

Lemma deleteFile_state (url : string) (outcome : DeleteOutcome) (s : AppState) :
  stateAfter (deleteFile url outcome) s = clearedState s.
Proof.
  unfold stateAfter, deleteFile, bind, readState. simpl.
  destruct (fileInfo s) as [fi|]; [|reflexivity].
  destruct (String.eqb (id fi) ""); [reflexivity|].
  destruct outcome; reflexivity.
Qed.

Lemma deleteFile_effects (url : string) (outcome : DeleteOutcome) (s : AppState) :
  forall e, In e (effectsOf (deleteFile url outcome) s) -> isToast e = false.
Proof.
  unfold effectsOf, deleteFile, bind, readState. simpl.
  destruct (fileInfo s) as [fi|]; [|intros e []].
  destruct (String.eqb (id fi) ""); [intros e []|].
  destruct outcome; simpl; intros e H;
    repeat (destruct H as [<-|H]; [reflexivity|]); destruct H.
Qed.

(** C8.  Whatever becomes of the DELETE request, [deleteFile] ends with no
    file, no preview data, no file info and zero progress, and shows no
    toast: the user never sees a failed deletion.  Deleting again, from the
    state so reached, leaves that state as it is, sends nothing and shows
    nothing, again for either outcome. *)
Theorem deleteFile_always_resets
    (url : string) (outcome again : DeleteOutcome) (s : AppState) :
  file (stateAfter (deleteFile url outcome) s) = None
  /\ previewData (stateAfter (deleteFile url outcome) s) = None
  /\ fileInfo (stateAfter (deleteFile url outcome) s) = None
  /\ uploadProgress (stateAfter (deleteFile url outcome) s) = 0
  /\ filter isToast (effectsOf (deleteFile url outcome) s) = []
  /\ stateAfter (deleteFile url outcome) s
     = stateAfter (deleteFile url again) s
  /\ deleteFile url again (stateAfter (deleteFile url outcome) s)
     = (tt, stateAfter (deleteFile url outcome) s, []).
Proof.
  rewrite !deleteFile_state. repeat split.
  pose proof (deleteFile_effects url outcome s) as Hno. revert Hno.
  generalize (effectsOf (deleteFile url outcome) s) as l.
  intros l Hno. induction l as [|x l IHl]; [reflexivity|].
  simpl. rewrite (Hno x (or_introl eq_refl)).
  apply IHl. intros y Hy. apply Hno. now right.
Qed.

(** ** Uploading *)

Lemma forEach_setUploadProgress (progress : list nat) :
  forall f d u p pd fi,
  exists p',
    forEach progress setUploadProgress (mkState f d u p pd fi)
      = (tt, mkState f d u p' pd fi, []).
Proof.
  induction progress as [|x l IH]; intros f d u p pd fi.
  - exists p. reflexivity.
  - destruct (IH f d u x pd fi) as [p' Hp'].
    exists p'. simpl. unfold bind, setUploadProgress at 1. simpl.
    rewrite Hp'. reflexivity.
Qed.

Lemma uploadFile_catch_run (detail : option string) (s : AppState) :
  uploadFile_catch detail s
    = (tt, clearedState s,
       [ConsoleError "Upload error:";
        ToastError "Error" (JsString.or_else detail "Error al procesar el archivo")]).
Proof. reflexivity. Qed.

(** C9.  When the upload request is rejected, [uploadFile] shows an error
    toast (the server's [detail], or a default text) and ends with the
    selected file, the preview data and the file info all [null], the
    progress back at 0 and the uploading flag off, whatever progress had
    been reported in between. *)
Theorem uploadFile_failure_clears
    (url : string) (progress : list nat) (detail : option string)
    (s : AppState) (f : File) :
  file s = Some f ->
  file (stateAfter (uploadFile url progress (UploadRejected detail)) s) = None
  /\ previewData (stateAfter (uploadFile url progress (UploadRejected detail)) s) = None
  /\ fileInfo (stateAfter (uploadFile url progress (UploadRejected detail)) s) = None
  /\ uploadProgress (stateAfter (uploadFile url progress (UploadRejected detail)) s) = 0
  /\ isUploading (stateAfter (uploadFile url progress (UploadRejected detail)) s) = false
  /\ In (ToastError "Error" (JsString.or_else detail "Error al procesar el archivo"))
        (effectsOf (uploadFile url progress (UploadRejected detail)) s).
Proof.
  destruct s as [sf d u p pd fi]. simpl. intros ->.
  unfold stateAfter, effectsOf, uploadFile, bind, readState. simpl.
  destruct (forEach_setUploadProgress progress (Some f) d true 0 pd fi) as [p' Hp'].
  rewrite Hp'. simpl. repeat split. right. right. left. reflexivity.
Qed.

Lemma uploadFile_failure_clears_witness :
  file (stateAfter (uploadFile "https://pdftoexc.facore.cloud" [12; 57; 100]
                               (UploadRejected (Some "No se pudo leer el PDF")))
                   (selectedState (mkFile "roto.pdf" 2048) initialState)) = None.
Proof.
  exact (proj1 (uploadFile_failure_clears "https://pdftoexc.facore.cloud" [12; 57; 100]
                  (Some "No se pudo leer el PDF")
                  (selectedState (mkFile "roto.pdf" 2048) initialState)
                  (mkFile "roto.pdf" 2048) eq_refl)).
Defined.

(** ** The preview table *)

Section Rendering.

Lemma mapi_from_values {A B} (h : A -> B) (l : list A) :
  forall k, mapi_from k (fun x _ => h x) l = map h l.
Proof. induction l as [|x l IH]; intros k; simpl; [reflexivity | now rewrite IH]. Qed.

Lemma mapi_from_indices {A B} (g : nat -> B) (l : list A) :
  forall k, mapi_from k (fun _ i => g i) l = map g (seq k (List.length l)).
Proof. induction l as [|x l IH]; intros k; simpl; [reflexivity | now rewrite IH]. Qed.

(** On strings [c || ''] is [c]: the only falsy string is the empty one. *)
Lemma renderCell_nth (row : Row) (colIdx : nat) :
  renderCell row colIdx = nth colIdx row "".
Proof.
  unfold renderCell. revert colIdx.
  induction row as [|c row IH]; intros [|j]; simpl; try reflexivity.
  - destruct (String.eqb_spec c ""); congruence.
  - apply IH.
Qed.

Lemma renderCell_past_end (row : Row) (colIdx : nat) :
  List.length row <= colIdx -> renderCell row colIdx = "".
Proof. intros H. rewrite renderCell_nth. now apply nth_overflow. Qed.

(** A row drawn over [width] columns is the row followed by empty cells. *)
Lemma render_row_padded (row : Row) :
  forall width, List.length row <= width ->
    map (renderCell row) (seq 0 width)
      = row ++ repeat "" (width - List.length row).
Proof.
  induction row as [|c row IH]; intros width Hw.
  - clear Hw. simpl. rewrite Nat.sub_0_r.
    generalize 0 as k. induction width as [|w IHw]; intros k; simpl;
      [reflexivity|].
    rewrite (renderCell_past_end [] k) by (simpl; lia). f_equal. apply IHw.
  - destruct width as [|w]; simpl in Hw; [lia|].
    cbn [seq map List.length Nat.sub app].
    rewrite renderCell_nth. cbn [nth]. f_equal.
    rewrite <- seq_shift, map_map.
    rewrite <- (IH w) by lia.
    apply map_ext. intros j. reflexivity.
Qed.

Lemma list_max_attained (l : list nat) : l <> [] -> In (list_max l) l.
Proof.
  induction l as [|x l IH]; [congruence|]. intros _.
  destruct l as [|y l].
  - left. simpl. lia.
  - change (list_max (x :: y :: l)) with (Nat.max x (list_max (y :: l))).
    destruct (Nat.max_spec x (list_max (y :: l))) as [[_ ->]|[_ ->]].
    + right. apply IH. discriminate.
    + now left.
Qed.

Variable s : AppState.
Variable rows : list Row.
Hypothesis Hrows : previewData s = Some rows.

Lemma getHeaders_length :
  List.length (getHeaders s) = list_max (map (@List.length string) rows).
Proof.
  unfold getHeaders. rewrite Hrows.
  destruct rows as [|r l]; [reflexivity|].
  cbn [List.length Nat.eqb]. now rewrite length_map, length_seq.
Qed.

Lemma renderPreview_nonempty :
  rows <> [] ->
  renderPreview s
    = Some {| captionShown := Nat.min (List.length rows) 100;
              captionTotal :=
                num_or_else (option_map totalRows (fileInfo s)) (List.length rows);
              headerCells := getHeaders s;
              bodyRows :=
                map (fun row => map (renderCell row)
                                    (seq 0 (List.length (getHeaders s))))
                    (firstn 100 rows) |}.
Proof.
  intros Hne. unfold renderPreview. rewrite Hrows.
  destruct rows as [|r l]; [congruence|].
  cbn [List.length Nat.ltb Nat.leb].
  unfold mapi. rewrite !mapi_from_values. rewrite map_id.
  do 2 f_equal. apply map_ext. intros row. apply mapi_from_indices.
Qed.

Lemma renderPreview_empty : rows = [] -> renderPreview s = None.
Proof. intros He. unfold renderPreview. rewrite Hrows, He. reflexivity. Qed.

Lemma renderedRows_map :
  renderedRows s
    = map (fun row => map (renderCell row) (seq 0 (List.length (getHeaders s))))
          (firstn 100 rows).
Proof.
  assert (Hcases : rows = [] \/ rows <> [])
    by (destruct rows; [now left | right; discriminate]).
  unfold renderedRows. destruct Hcases as [He|Hne].
  - rewrite (renderPreview_empty He), He. reflexivity.
  - rewrite (renderPreview_nonempty Hne). reflexivity.
Qed.

Lemma row_fits (row : Row) :
  In row rows -> List.length row <= List.length (getHeaders s).
Proof.
  intros Hin. rewrite getHeaders_length.
  pose proof (proj1 (list_max_le (map (@List.length string) rows) _) (le_n _)) as Hall.
  rewrite Forall_forall in Hall. apply Hall. now apply in_map.
Qed.

(** Row [i] on screen is row [i] of the data, padded to the table width. *)
Lemma renderedRows_nth (i : nat) :
  nth_error (renderedRows s) i
    = if i <? 100
      then option_map
             (fun row => row ++ repeat "" (List.length (getHeaders s) - List.length row))
             (nth_error rows i)
      else None.
Proof.
  rewrite renderedRows_map, nth_error_map, nth_error_firstn.
  destruct (i <? 100); [|reflexivity].
  destruct (nth_error rows i) as [row|] eqn:Hi; [|reflexivity].
  simpl. f_equal. apply render_row_padded, row_fits.
  eapply nth_error_In, Hi.
Qed.

End Rendering.

(** C4.  With [n] rows of preview data the table body holds
    [min n 100] rows, so never more than 100; the section is drawn exactly
    when [n > 0], its caption then shows [min n 100] as the number of rows
    on screen, and shows the total of the file info beside it whenever that
    total is a non-zero number. *)
Theorem preview_row_count (s : AppState) (rows : list Row) :
  previewData s = Some rows ->
  List.length (renderedRows s) = Nat.min (List.length rows) 100
  /\ List.length (renderedRows s) <= 100
  /\ (rows <> [] -> exists sec, renderPreview s = Some sec)
  /\ (forall sec, renderPreview s = Some sec ->
        List.length (bodyRows sec) = Nat.min (List.length rows) 100
        /\ captionShown sec = Nat.min (List.length rows) 100
        /\ (forall fi, fileInfo s = Some fi -> totalRows fi <> 0 ->
              captionTotal sec = totalRows fi)).
Proof.
  intros Hrows.
  assert (Hlen : List.length (renderedRows s) = Nat.min (List.length rows) 100).
  { rewrite (renderedRows_map s rows Hrows), length_map, length_firstn. apply Nat.min_comm. }
  split; [exact Hlen|]. split; [lia|]. split.
  - intros Hne. eexists. apply (renderPreview_nonempty s rows Hrows Hne).
  - intros sec Hsec.
    assert (Hne : rows <> []).
    { intros He. rewrite (renderPreview_empty s rows Hrows He) in Hsec. discriminate. }
    rewrite (renderPreview_nonempty s rows Hrows Hne) in Hsec.
    assert (Hs : forall a b : PreviewSection, Some a = Some b -> b = a) by congruence.
    apply Hs in Hsec. subst sec. clear Hs.
    unfold bodyRows, captionShown, captionTotal.
    split; [|split].
    + rewrite length_map, length_firstn. apply Nat.min_comm.
    + reflexivity.
    + intros fi -> Hnz. unfold option_map, num_or_else.
      destruct (totalRows fi); [congruence | reflexivity].
Qed.

(** A preview of 250 rows from a 250-row document: 100 rows on screen. *)
Lemma preview_row_count_witness :
  List.length
    (renderedRows (mkState None false false 100
                     (Some (repeat ["a"; "b"] 250))
                     (Some (mkFileInfo "f1" "tabla.pdf" "ready" 250 3))))
    = Nat.min (List.length (repeat ["a"; "b"] 250)) 100.
Proof.
  refine (proj1 (preview_row_count _ (repeat ["a"; "b"] 250) _)).
  reflexivity.
Defined.

(** C5.  For non-empty preview data the number of header cells is the
    largest row length of the whole sequence (no row is longer, some row is
    as long), every row on screen has that many cells, and a shorter row is
    drawn as its own cells followed by empty strings. *)
Theorem preview_width_and_padding (s : AppState) (rows : list Row) :
  previewData s = Some rows ->
  rows <> [] ->
  (forall row, In row rows -> List.length row <= List.length (getHeaders s))
  /\ (exists row, In row rows /\ List.length row = List.length (getHeaders s))
  /\ (exists sec, renderPreview s = Some sec
                  /\ List.length (headerCells sec) = List.length (getHeaders s)
                  /\ bodyRows sec = renderedRows s)
  /\ (forall rendered, In rendered (renderedRows s) ->
        List.length rendered = List.length (getHeaders s))
  /\ (forall i row, i < 100 -> nth_error rows i = Some row ->
        nth_error (renderedRows s) i
          = Some (row ++ repeat "" (List.length (getHeaders s) - List.length row))).
Proof.
  intros Hrows Hne. split; [|split; [|split; [|split]]].
  - intros row. apply (row_fits s rows Hrows).
  - rewrite (getHeaders_length s rows Hrows).
    assert (Hin : In (list_max (map (@List.length string) rows))
                     (map (@List.length string) rows)).
    { apply list_max_attained. destruct rows; [congruence | discriminate]. }
    apply in_map_iff in Hin. destruct Hin as (row & Hlen & Hin). eauto.
  - eexists. split; [apply (renderPreview_nonempty s rows Hrows Hne)|].
    split; [reflexivity|].
    unfold renderedRows. rewrite (renderPreview_nonempty s rows Hrows Hne). reflexivity.
  - intros rendered Hin. rewrite (renderedRows_map s rows Hrows) in Hin.
    apply in_map_iff in Hin. destruct Hin as (row & <- & _).
    now rewrite length_map, length_seq.
  - intros i row Hi Hnth. rewrite (renderedRows_nth s rows Hrows), Hnth.
    apply Nat.ltb_lt in Hi. now rewrite Hi.
Qed.

Lemma preview_width_and_padding_witness :
  nth_error
    (renderedRows (mkState None false false 100
                     (Some [["Nombre"; "Edad"; "Ciudad"]; ["Ana"]; ["Luis"; "41"]])
                     (Some (mkFileInfo "f2" "gente.pdf" "ready" 3 1)))) 1
    = Some (["Ana"] ++ repeat ""
              (List.length
                 (getHeaders (mkState None false false 100
                     (Some [["Nombre"; "Edad"; "Ciudad"]; ["Ana"]; ["Luis"; "41"]])
                     (Some (mkFileInfo "f2" "gente.pdf" "ready" 3 1))))
               - List.length ["Ana"])).
Proof.
  refine (proj2 (proj2 (proj2 (proj2
            (preview_width_and_padding _
               [["Nombre"; "Edad"; "Ciudad"]; ["Ana"]; ["Luis"; "41"]] _ _))))
            1 ["Ana"] _ _).
  - reflexivity.
  - discriminate.
  - lia.
  - reflexivity.
Defined.

(** C6.  Row [i] of the table body is row [i] of the preview data, for
    every [i] below 100, and nothing else is drawn: each row on screen
    comes from the data row at the same index, shows that row's cells at
    the same positions, and holds only empty cells after them. *)
Theorem preview_preserves_order (s : AppState) (rows : list Row) :
  previewData s = Some rows ->
  (forall i row, i < 100 -> nth_error rows i = Some row ->
     exists rendered,
       nth_error (renderedRows s) i = Some rendered
       /\ firstn (List.length row) rendered = row
       /\ forall j cell, nth_error row j = Some cell -> nth_error rendered j = Some cell)
  /\ (forall i rendered, nth_error (renderedRows s) i = Some rendered ->
        exists row,
          nth_error rows i = Some row
          /\ (forall j, j < List.length row -> nth_error rendered j = nth_error row j)
          /\ (forall j, List.length row <= j -> j < List.length rendered ->
                nth_error rendered j = Some "")).
Proof.
  intros Hrows. split.
  - intros i row Hi Hnth. eexists. split; [|split].
    + rewrite (renderedRows_nth s rows Hrows), Hnth.
      apply Nat.ltb_lt in Hi. rewrite Hi. reflexivity.
    + rewrite firstn_app, Nat.sub_diag, firstn_all. cbn [firstn]. apply app_nil_r.
    + intros j cell Hj. rewrite nth_error_app1; [exact Hj|].
      apply nth_error_Some. congruence.
  - intros i rendered Hr. rewrite (renderedRows_nth s rows Hrows) in Hr.
    destruct (i <? 100); [|discriminate].
    destruct (nth_error rows i) as [row|]; [|discriminate].
    injection Hr as <-. exists row. split; [reflexivity|]. split.
    + intros j Hj. now apply nth_error_app1.
    + intros j Hj Hlt. rewrite nth_error_app2 by exact Hj.
      rewrite length_app, repeat_length in Hlt.
      apply nth_error_repeat. lia.
Qed.

Lemma preview_preserves_order_witness :
  exists rendered,
    nth_error
      (renderedRows (mkState None false false 100
                       (Some [["1"; "uno"]; ["2"]; ["3"; "tres"; "iii"]])
                       (Some (mkFileInfo "f3" "lista.pdf" "ready" 3 1)))) 1
      = Some rendered
    /\ firstn (List.length ["2"]) rendered = ["2"]
    /\ forall j cell, nth_error ["2"] j = Some cell -> nth_error rendered j = Some cell.
Proof.
  refine (proj1 (preview_preserves_order _
                   [["1"; "uno"]; ["2"]; ["3"; "tres"; "iii"]] _) 1 ["2"] _ _).
  - reflexivity.
  - lia.
  - reflexivity.
Defined.

(** ** The name shown when a download starts *)

(** When the only [.pdf] of a name is its lowercase extension,
    [replace('.pdf', '.xlsx')] swaps the extension. *)
Lemma replace_lowercase_extension (base : string) :
  index 0 ".pdf" (base ++ ".pdf") = Some (String.length base) ->
  JsString.replace (base ++ ".pdf") ".pdf" ".xlsx" = (base ++ ".xlsx")%string.
Proof.
  intros Hidx. unfold JsString.replace. rewrite Hidx.
  rewrite JsStringFacts.substring_head, JsStringFacts.length_append.
  cbn [String.length]. rewrite Nat.sub_diag, JsStringFacts.substring_zero_len.
  reflexivity.
Qed.

Example replace_plain_name :
  JsString.replace "factura-2024.pdf" ".pdf" ".xlsx" = "factura-2024.xlsx".
Proof.
  apply (replace_lowercase_extension "factura-2024"). reflexivity.
Qed.

(** C3 (fails on the code).  [REPORT.PDF] passes the case-insensitive
    extension check of [validateAndSetFile]; once it is uploaded and the
    server answers with that name, [downloadFile] announces the download
    as [REPORT.PDF]: the case-sensitive [replace('.pdf', '.xlsx')] finds
    nothing to replace.  For [datos.pdf.pdf] it announces
    [datos.xlsx.pdf]: the first [.pdf] is replaced, not the extension. *)
Theorem download_name_not_renamed (url : string) :
  validateAndSetFile (mkFile "REPORT.PDF" 2048) initialState
    = (tt, selectedState (mkFile "REPORT.PDF" 2048) initialState, [])
  /\ effectsOf (downloadFile url true)
       (stateAfter
          (uploadFile url [100]
             (UploadResolved (mkResponse "42" "REPORT.PDF" "ready" 12 1 [["a"; "b"]])))
          (selectedState (mkFile "REPORT.PDF" 2048) initialState))
     = [WindowOpen (API url ++ "/download/42") "_blank";
        ToastSuccess "Descarga iniciada" "Archivo: REPORT.PDF"]
  /\ effectsOf (downloadFile url true)
       (stateAfter
          (uploadFile url [100]
             (UploadResolved (mkResponse "43" "datos.pdf.pdf" "ready" 12 1 [["a"; "b"]])))
          (selectedState (mkFile "datos.pdf.pdf" 2048) initialState))
     = [WindowOpen (API url ++ "/download/43") "_blank";
        ToastSuccess "Descarga iniciada" "Archivo: datos.xlsx.pdf"].
Proof. repeat split. Qed.

(** The announced name is not, in general, the original name with its
    extension replaced: no reading of "ends case-insensitively in .pdf"
    makes [downloadFile] announce [base.xlsx] for every such name. *)
Lemma download_name_claim_refuted :
  ~ (forall (url : string) (s : AppState) (fi : FileInfo) (base ext : string),
       fileInfo s = Some fi ->
       JsString.truthy (Some (id fi)) = true ->
       originalFilename fi = (base ++ ext)%string ->
       JsString.toLowerCase ext = ".pdf" ->
       In (ToastSuccess "Descarga iniciada" ("Archivo: " ++ base ++ ".xlsx")%string)
          (effectsOf (downloadFile url true) s)).
Proof.
  intros Hclaim.
  specialize (Hclaim "" (mkState None false false 100 (Some [["a"]])
                           (Some (mkFileInfo "42" "REPORT.PDF" "ready" 1 1)))
                     (mkFileInfo "42" "REPORT.PDF" "ready" 1 1)
                     "REPORT" ".PDF" eq_refl eq_refl eq_refl eq_refl).
  vm_compute in Hclaim.
  destruct Hclaim as [H|[H|[]]]; discriminate H.
Qed.

(** * Beyond the claims *)

(** ** Sequencing *)

Lemma stateAfter_bind {A B} (m : Handler A) (k : A -> Handler B) (s : AppState) :
  stateAfter (bind m k) s = stateAfter (k (fst (fst (m s)))) (stateAfter m s).
Proof.
  unfold stateAfter, bind. destruct (m s) as [[a s1] l1]. simpl.
  destruct (k a s1) as [[b s2] l2]. reflexivity.
Qed.

Lemma effectsOf_bind {A B} (m : Handler A) (k : A -> Handler B) (s : AppState) :
  effectsOf (bind m k) s
    = effectsOf m s ++ effectsOf (k (fst (fst (m s)))) (stateAfter m s).
Proof.
  unfold effectsOf, stateAfter, bind. destruct (m s) as [[a s1] l1]. simpl.
  destruct (k a s1) as [[b s2] l2]. reflexivity.
Qed.

Lemma last_default_irrelevant {A} (l : list A) (d d' : A) :
  l <> [] -> last l d = last l d'.
Proof.
  induction l as [|x l IH]; [congruence|]. intros _.
  destruct l as [|y l]; [reflexivity|].
  change (last (y :: l) d = last (y :: l) d'). apply IH. discriminate.
Qed.

Lemma last_cons_default {A} (x : A) (l : list A) (d : A) :
  last (x :: l) d = last l x.
Proof.
  destruct l as [|y l]; [reflexivity|].
  change (last (y :: l) d = last (y :: l) x).
  apply last_default_irrelevant. discriminate.
Qed.

(** The progress callbacks leave the last percentage in the state. *)
Lemma forEach_setUploadProgress_last (progress : list nat) :
  forall f d u p pd fi,
    forEach progress setUploadProgress (mkState f d u p pd fi)
      = (tt, mkState f d u (last progress p) pd fi, []).
Proof.
  induction progress as [|x l IH]; intros f d u p pd fi; [reflexivity|].
  rewrite last_cons_default.
  change (forEach (x :: l) setUploadProgress)
    with (bind (setUploadProgress x) (fun _ => forEach l setUploadProgress)).
  unfold bind. cbn [setUploadProgress file isDragging isUploading previewData fileInfo].
  rewrite IH. reflexivity.
Qed.

(** ** Uploading, the other paths *)

Lemma uploadFile_resolved_run
    (url : string) (progress : list nat) (data : UploadResponse)
    (s : AppState) (f : File) :
  file s = Some f ->
  uploadFile url progress (UploadResolved data) s
    = (tt,
       {| file := Some f;
          isDragging := isDragging s;
          isUploading := false;
          uploadProgress := last progress 0;
          previewData := Some (r_preview_data data);
          fileInfo := Some (fileInfoOfResponse data) |},
       [AxiosPost (API url ++ "/upload")%string f;
        ToastSuccess "PDF procesado correctamente"
          ("Se encontraron " ++ JsString.ofNat (r_total_rows data)
           ++ " filas en " ++ JsString.ofNat (r_total_pages data)
           ++ " página(s)")%string]).
Proof.
  destruct s as [sf d u p pd fi]. cbn [file isDragging]. intros ->.
  unfold uploadFile, bind at 1, readState. cbn [file].
  unfold bind at 1, setIsUploading.
  cbn [file isDragging isUploading uploadProgress previewData fileInfo].
  unfold bind at 1, setUploadProgress at 1.
  cbn [file isDragging isUploading uploadProgress previewData fileInfo].
  unfold bind at 1, emit at 1.
  unfold bind at 1. rewrite forEach_setUploadProgress_last.
  reflexivity.
Qed.

(** X1.  When the request resolves, [uploadFile] stores the five fields of
    the response as the file info and its [preview_data] as the preview,
    keeps the selected file, leaves the last reported percentage as the
    progress, switches the uploading flag off, and its only effects are the
    POST and one success toast that quotes the row and page counts. *)
Theorem uploadFile_success
    (url : string) (progress : list nat) (data : UploadResponse)
    (s : AppState) (f : File) :
  file s = Some f ->
  uploadFile url progress (UploadResolved data) s
    = (tt,
       {| file := Some f;
          isDragging := isDragging s;
          isUploading := false;
          uploadProgress := last progress 0;
          previewData := Some (r_preview_data data);
          fileInfo := Some {| id := r_id data;
                              originalFilename := r_original_filename data;
                              status := r_status data;
                              totalRows := r_total_rows data;
                              totalPages := r_total_pages data |} |},
       [AxiosPost (API url ++ "/upload")%string f;
        ToastSuccess "PDF procesado correctamente"
          ("Se encontraron " ++ JsString.ofNat (r_total_rows data)
           ++ " filas en " ++ JsString.ofNat (r_total_pages data)
           ++ " página(s)")%string]).
Proof.
  intros Hf. rewrite (uploadFile_resolved_run url progress data s f Hf).
  reflexivity.
Qed.

Lemma uploadFile_success_witness :
  previewData
    (stateAfter
       (uploadFile "https://pdftoexc.facore.cloud" [30; 100]
          (UploadResolved (mkResponse "a1" "ventas.pdf" "ready" 2 1
                             [["Mes"; "Total"]; ["Enero"; "10"]])))
       (selectedState (mkFile "ventas.pdf" 4096) initialState))
    = Some [["Mes"; "Total"]; ["Enero"; "10"]].
Proof.
  unfold stateAfter.
  rewrite (uploadFile_success "https://pdftoexc.facore.cloud" [30; 100]
             (mkResponse "a1" "ventas.pdf" "ready" 2 1
                [["Mes"; "Total"]; ["Enero"; "10"]])
             (selectedState (mkFile "ventas.pdf" 4096) initialState)
             (mkFile "ventas.pdf" 4096) eq_refl).
  reflexivity.
Defined.

(** X2.  [uploadFile] makes a request only for a selected file: with no
    file it returns at once, state and effect log untouched; with a file it
    makes exactly one request, the POST of that file to [/api/upload],
    however the request settles. *)
Theorem uploadFile_one_request
    (url : string) (progress : list nat) (outcome : UploadOutcome) (s : AppState) :
  (file s = None -> uploadFile url progress outcome s = (tt, s, []))
  /\ (forall f, file s = Some f ->
        filter isRequest (effectsOf (uploadFile url progress outcome) s)
          = [AxiosPost (API url ++ "/upload")%string f]).
Proof.
  destruct s as [sf d u p pd fi]. cbn [file]. split.
  - intros ->. reflexivity.
  - intros f ->. unfold effectsOf, uploadFile, bind at 1, readState. cbn [file].
    unfold bind at 1, setIsUploading.
    cbn [file isDragging isUploading uploadProgress previewData fileInfo].
    unfold bind at 1, setUploadProgress at 1.
    cbn [file isDragging isUploading uploadProgress previewData fileInfo].
    unfold bind at 1, emit at 1.
    unfold bind at 1. rewrite forEach_setUploadProgress_last.
    destruct outcome; reflexivity.
Qed.

Lemma uploadFile_one_request_witness :
  uploadFile "https://pdftoexc.facore.cloud" [50] (UploadRejected None) initialState
    = (tt, initialState, []).
Proof.
  refine (proj1 (uploadFile_one_request _ _ _ _) _). reflexivity.
Defined.

(** ** Downloading *)

Lemma downloadFile_run (url : string) (popupOpened : bool) (s : AppState) :
  downloadFile url popupOpened s
    = match fileInfo s with
      | None => (tt, s, [])
      | Some fi =>
          if String.eqb (id fi) "" then (tt, s, [])
          else (tt, s,
                [WindowOpen (API url ++ "/download/" ++ id fi)%string "_blank";
                 if popupOpened
                 then ToastSuccess "Descarga iniciada"
                        ("Archivo: "
                         ++ JsString.replace (originalFilename fi) ".pdf" ".xlsx")%string
                 else ToastError "Popup bloqueado"
                        "Permite popups o haz clic derecho en el botón y selecciona 'Abrir enlace en nueva pestaña'"])
      end.
Proof.
  unfold downloadFile, bind, readState. cbv beta iota.
  destruct (fileInfo s) as [fi|]; [|reflexivity].
  unfold JsString.truthy. destruct (String.eqb (id fi) ""); [reflexivity|].
  destruct popupOpened; reflexivity.
Qed.

(** X3.  [downloadFile] never changes the state.  Without a file info, or
    with an empty identifier, it does nothing at all; otherwise it opens
    [/api/download/<id>] in a new window, once, and then shows the success
    toast if the window opened and the popup-blocked error toast if not. *)
Theorem downloadFile_behaviour (url : string) (popupOpened : bool) (s : AppState) :
  stateAfter (downloadFile url popupOpened) s = s
  /\ (JsString.truthy (option_map id (fileInfo s)) = false ->
      effectsOf (downloadFile url popupOpened) s = [])
  /\ (forall fi, fileInfo s = Some fi -> id fi <> "" ->
      effectsOf (downloadFile url popupOpened) s
        = [WindowOpen (API url ++ "/download/" ++ id fi)%string "_blank";
           if popupOpened
           then ToastSuccess "Descarga iniciada"
                  ("Archivo: "
                   ++ JsString.replace (originalFilename fi) ".pdf" ".xlsx")%string
           else ToastError "Popup bloqueado"
                  "Permite popups o haz clic derecho en el botón y selecciona 'Abrir enlace en nueva pestaña'"]).
Proof.
  unfold stateAfter, effectsOf. rewrite downloadFile_run.
  destruct (fileInfo s) as [fi|]; cbn [option_map JsString.truthy].
  - destruct (String.eqb_spec (id fi) "") as [He|Hne]; cbn [negb fst snd].
    + repeat split. intros fi' [= <-] Hid. contradiction.
    + repeat split; [discriminate|]. intros fi' [= <-] _. reflexivity.
  - repeat split. discriminate.
Qed.

Lemma downloadFile_behaviour_witness :
  effectsOf (downloadFile "https://pdftoexc.facore.cloud" false)
            (mkState None false false 100 (Some [["a"]])
               (Some (mkFileInfo "77" "acta.pdf" "ready" 1 1)))
    = [WindowOpen (API "https://pdftoexc.facore.cloud" ++ "/download/" ++ "77")%string
                  "_blank";
       ToastError "Popup bloqueado"
         "Permite popups o haz clic derecho en el botón y selecciona 'Abrir enlace en nueva pestaña'"].
Proof.
  refine (proj2 (proj2 (downloadFile_behaviour _ false _))
            (mkFileInfo "77" "acta.pdf" "ready" 1 1) _ _).
  - reflexivity.
  - discriminate.
Defined.

Lemma prefix_split (p : string) :
  forall t, prefix p t = true -> exists r, t = (p ++ r)%string.
Proof.
  induction p as [|a p IH]; intros t H.
  - exists t. reflexivity.
  - destruct t as [|b t]; simpl in H; [discriminate|].
    destruct (ascii_dec a b) as [<-|]; [|discriminate].
    destruct (IH t H) as [r ->]. exists r. reflexivity.
Qed.

(** In [base.pdf], with no [.pdf] inside [base], the first [.pdf] is the
    extension: an occurrence cannot begin in [base] and end in the
    extension. *)
Lemma index_of_extension (base : string) :
  (forall a b, base <> (a ++ ".pdf" ++ b)%string) ->
  index 0 ".pdf" (base ++ ".pdf") = Some (String.length base).
Proof.
  induction base as [|c base IH]; intros Hfree; [reflexivity|].
  assert (Hpre : prefix ".pdf" (String c base ++ ".pdf") = false).
  { destruct (prefix ".pdf" (String c base ++ ".pdf")) eqn:Hp; [|reflexivity].
    exfalso. apply prefix_split in Hp. destruct Hp as [r Hr].
    destruct base as [|c1 [|c2 [|c3 rest]]]; simpl in Hr; try discriminate Hr.
    injection Hr as -> -> -> -> _.
    apply (Hfree "" rest). reflexivity. }
  change (index 0 ".pdf" (String c base ++ ".pdf"))
    with (if prefix ".pdf" (String c base ++ ".pdf") then Some 0
          else match index 0 ".pdf" (base ++ ".pdf") with
               | Some n => Some (S n)
               | None => None
               end).
  rewrite Hpre, IH; [reflexivity|].
  intros a b ->. apply (Hfree (String c a) b). reflexivity.
Qed.

(** X4.  For an original name [base.pdf] whose [base] holds no [.pdf],
    the toast of a started download names [base.xlsx]. *)
Theorem download_name_plain_pdf
    (url : string) (s : AppState) (fi : FileInfo) (base : string) :
  fileInfo s = Some fi ->
  id fi <> "" ->
  originalFilename fi = (base ++ ".pdf")%string ->
  (forall a b, base <> (a ++ ".pdf" ++ b)%string) ->
  effectsOf (downloadFile url true) s
    = [WindowOpen (API url ++ "/download/" ++ id fi)%string "_blank";
       ToastSuccess "Descarga iniciada" ("Archivo: " ++ base ++ ".xlsx")%string].
Proof.
  intros Hfi Hid Hname Hfree.
  unfold effectsOf. rewrite downloadFile_run, Hfi.
  destruct (String.eqb_spec (id fi) "") as [He|_]; [contradiction|].
  rewrite Hname, replace_lowercase_extension by now apply index_of_extension.
  reflexivity.
Qed.

Lemma no_pdf_inside_v2 : forall a b, "informe.v2" <> (a ++ ".pdf" ++ b)%string.
Proof.
  intros a b H.
  assert (Hidx : index 0 ".pdf" ("informe.v2" ++ ".pdf") = Some 10) by reflexivity.
  assert (Hlen : String.length a + 4 <= 10).
  { apply (f_equal String.length) in H.
    rewrite !JsStringFacts.length_append in H. simpl in H. lia. }
  do 11 (destruct a as [|? a]; [discriminate H | try (simpl in Hlen; lia)]);
    injection H; intros; subst; discriminate.
Qed.

Lemma download_name_plain_pdf_witness :
  effectsOf (downloadFile "https://pdftoexc.facore.cloud" true)
            (mkState None false false 100 (Some [["a"]])
               (Some (mkFileInfo "9" "informe.v2.pdf" "ready" 1 1)))
    = [WindowOpen (API "https://pdftoexc.facore.cloud" ++ "/download/" ++ "9")%string
                  "_blank";
       ToastSuccess "Descarga iniciada" ("Archivo: " ++ "informe.v2" ++ ".xlsx")%string].
Proof.
  refine (download_name_plain_pdf _ _ (mkFileInfo "9" "informe.v2.pdf" "ready" 1 1)
            "informe.v2" _ _ _ no_pdf_inside_v2).
  - reflexivity.
  - discriminate.
  - reflexivity.
Defined.

(** ** Deleting, the request *)

Lemma deleteFile_run (url : string) (outcome : DeleteOutcome) (s : AppState) :
  deleteFile url outcome s
    = (tt, clearedState s,
       match fileInfo s with
       | None => []
       | Some fi =>
           if String.eqb (id fi) "" then []
           else AxiosDelete (API url ++ "/file/" ++ id fi)%string
                  :: match outcome with
                     | DeleteResolved => []
                     | DeleteRejected => [ConsoleError "Delete error:"]
                     end
       end).
Proof.
  unfold deleteFile, bind, readState. cbv beta iota.
  destruct (fileInfo s) as [fi|]; [|reflexivity].
  unfold JsString.truthy. destruct (String.eqb (id fi) ""); [reflexivity|].
  destruct outcome; reflexivity.
Qed.

(** X5.  [deleteFile] sends a DELETE only when the file info carries a
    non-empty identifier, then exactly one, to [/api/file/<id>]; a rejected
    request adds a console message and nothing else.  Without an
    identifier it performs no effect. *)
Theorem deleteFile_request (url : string) (outcome : DeleteOutcome) (s : AppState) :
  (JsString.truthy (option_map id (fileInfo s)) = false ->
   effectsOf (deleteFile url outcome) s = [])
  /\ (forall fi, fileInfo s = Some fi -> id fi <> "" ->
      effectsOf (deleteFile url outcome) s
        = AxiosDelete (API url ++ "/file/" ++ id fi)%string
            :: match outcome with
               | DeleteResolved => []
               | DeleteRejected => [ConsoleError "Delete error:"]
               end).
Proof.
  unfold effectsOf. rewrite deleteFile_run. cbn [snd].
  destruct (fileInfo s) as [fi|]; cbn [option_map JsString.truthy].
  - destruct (String.eqb_spec (id fi) "") as [He|Hne]; cbn [negb].
    + split; [reflexivity|]. intros fi' [= <-] Hid. contradiction.
    + split; [discriminate|]. intros fi' [= <-] _. reflexivity.
  - split; [reflexivity|]. discriminate.
Qed.

Lemma deleteFile_request_witness :
  effectsOf (deleteFile "https://pdftoexc.facore.cloud" DeleteRejected)
            (mkState None false false 100 (Some [["a"]])
               (Some (mkFileInfo "77" "acta.pdf" "ready" 1 1)))
    = [AxiosDelete (API "https://pdftoexc.facore.cloud" ++ "/file/" ++ "77")%string;
       ConsoleError "Delete error:"].
Proof.
  refine (proj2 (deleteFile_request _ DeleteRejected _)
            (mkFileInfo "77" "acta.pdf" "ready" 1 1) _ _).
  - reflexivity.
  - discriminate.
Defined.

(** ** Selecting, seen from the events *)

Lemma validateAndSetFile_state (f : File) (s : AppState) :
  stateAfter (validateAndSetFile f) s
    = if passesValidation f then selectedState f s else s.
Proof.
  unfold stateAfter, passesValidation. rewrite validateAndSetFile_run.
  destruct (JsString.endsWith _ _); [|reflexivity]. cbn [negb andb].
  destruct (MAX_FILE_SIZE <? size f)%N; reflexivity.
Qed.

Lemma validateAndSetFile_effects (f : File) (s s' : AppState) :
  effectsOf (validateAndSetFile f) s = effectsOf (validateAndSetFile f) s'.
Proof.
  unfold effectsOf. rewrite !validateAndSetFile_run.
  destruct (JsString.endsWith _ _); [|reflexivity]. cbn [negb].
  destruct (MAX_FILE_SIZE <? size f)%N; reflexivity.
Qed.

Lemma handleDrop_run (files : list File) (s : AppState) :
  handleDrop files s
    = match files with
      | [] => (tt, stateAfter (setIsDragging false) s, [PreventDefault])
      | f :: _ =>
          (tt, stateAfter (validateAndSetFile f) (stateAfter (setIsDragging false) s),
           PreventDefault
             :: effectsOf (validateAndSetFile f) (stateAfter (setIsDragging false) s))
      end.
Proof.
  unfold handleDrop, bind, emit, setIsDragging, stateAfter, effectsOf.
  destruct files as [|f rest]; [reflexivity|]. cbn [nth_error fst snd].
  destruct (validateAndSetFile f _) as [[[] s1] log]. reflexivity.
Qed.

(** X6.  Every drop switches the dragging flag off and calls
    [preventDefault] first, whether its file is accepted, rejected or
    missing; a drop without files changes nothing else and shows nothing. *)
Theorem handleDrop_clears_dragging (files : list File) (s : AppState) :
  isDragging (stateAfter (handleDrop files) s) = false
  /\ (exists rest, effectsOf (handleDrop files) s = PreventDefault :: rest)
  /\ handleDrop [] s
     = (tt,
        {| file := file s; isDragging := false; isUploading := isUploading s;
           uploadProgress := uploadProgress s; previewData := previewData s;
           fileInfo := fileInfo s |},
        [PreventDefault]).
Proof.
  unfold stateAfter at 1, effectsOf at 1. rewrite handleDrop_run.
  destruct files as [|f rest]; cbn [fst snd].
  - repeat split. eexists. reflexivity.
  - rewrite validateAndSetFile_state.
    split; [destruct (passesValidation f); reflexivity|].
    split; [eexists; reflexivity | reflexivity].
Qed.

(** X7.  Dropping files and choosing them in the file dialog select the
    same way: the same file, preview data, file info, uploading flag and
    progress result, and the same toasts are shown. *)
Theorem drop_and_select_agree (files : list File) (s : AppState) :
  file (stateAfter (handleDrop files) s) = file (stateAfter (handleFileSelect files) s)
  /\ previewData (stateAfter (handleDrop files) s)
     = previewData (stateAfter (handleFileSelect files) s)
  /\ fileInfo (stateAfter (handleDrop files) s)
     = fileInfo (stateAfter (handleFileSelect files) s)
  /\ isUploading (stateAfter (handleDrop files) s)
     = isUploading (stateAfter (handleFileSelect files) s)
  /\ uploadProgress (stateAfter (handleDrop files) s)
     = uploadProgress (stateAfter (handleFileSelect files) s)
  /\ filter isToast (effectsOf (handleDrop files) s)
     = filter isToast (effectsOf (handleFileSelect files) s).
Proof.
  unfold stateAfter at 1 3 5 7 9, effectsOf at 1. rewrite handleDrop_run.
  unfold handleFileSelect.
  destruct files as [|f rest]; cbn [nth_error fst snd filter isToast].
  - repeat split.
  - rewrite !validateAndSetFile_state.
    rewrite (validateAndSetFile_effects f (stateAfter (setIsDragging false) s) s).
    destruct (passesValidation f); repeat split.
Qed.

(** X8.  A file is selected exactly when its name ends in a dot followed
    by [p], [d], [f], each in either case, and its size is at most
    [10 * 1024 * 1024] bytes. *)
Theorem selection_accepts_exactly (f : File) (s : AppState) :
  validateAndSetFile f s = (tt, selectedState f s, [])
  <-> (exists base p d x,
         name f = (base ++ String "." (String p (String d (String x ""))))%string
         /\ (p = "p" \/ p = "P")%char
         /\ (d = "d" \/ d = "D")%char
         /\ (x = "f" \/ x = "F")%char)
      /\ (size f <= 10 * 1024 * 1024)%N.
Proof.
  rewrite validateAndSetFile_run.
  change (10 * 1024 * 1024)%N with MAX_FILE_SIZE.
  assert (Hname :
    JsString.endsWith (JsString.toLowerCase (name f)) ".pdf" = true
    <-> exists base p d x,
          name f = (base ++ String "." (String p (String d (String x ""))))%string
          /\ (p = "p" \/ p = "P")%char
          /\ (d = "d" \/ d = "D")%char
          /\ (x = "f" \/ x = "F")%char).
  { rewrite JsStringFacts.lowercase_suffix_pdf. split.
    - intros (base & ext & Hn & Hext).
      apply JsStringFacts.lowercase_is_pdf in Hext.
      destruct Hext as (p & d & x & -> & Hp & Hd & Hx). exists base, p, d, x. tauto.
    - intros (base & p & d & x & Hn & Hp & Hd & Hx).
      exists base, (String "." (String p (String d (String x "")))).
      split; [exact Hn|]. apply JsStringFacts.lowercase_is_pdf.
      exists p, d, x. tauto. }
  rewrite <- Hname.
  destruct (JsString.endsWith _ _); cbn [negb].
  - destruct (N.ltb_spec MAX_FILE_SIZE (size f)) as [Hgt|Hle].
    + split; [discriminate|]. intros [_ H]. lia.
    + split; [intros _; split; [reflexivity | exact Hle] | reflexivity].
  - split; [discriminate|]. intros [H _]. discriminate H.
Qed.

(** X9.  Once a file is accepted the upload zone is on screen and shows
    the name of that file; the two action buttons are there unless an
    upload is under way, and neither the file info, nor the table, nor the
    download buttons are drawn. *)
Theorem accepted_file_on_screen (f : File) (s : AppState) :
  JsString.endsWith (JsString.toLowerCase (name f)) ".pdf" = true ->
  (size f <= MAX_FILE_SIZE)%N ->
  uploadZoneText (stateAfter (validateAndSetFile f) s) = Some (name f)
  /\ visibleControls (stateAfter (validateAndSetFile f) s)
     = {| uploadZone := true;
          progressBar := isUploading s;
          actionButtons := negb (isUploading s);
          fileInfoPanel := false;
          previewSection := false;
          downloadActions := false |}.
Proof.
  intros Hname Hsize. rewrite validateAndSetFile_state.
  unfold passesValidation. rewrite Hname.
  destruct (N.ltb_spec MAX_FILE_SIZE (size f)) as [Hgt|_]; [lia|].
  split; reflexivity.
Qed.

Lemma accepted_file_on_screen_witness :
  uploadZoneText (stateAfter (validateAndSetFile (mkFile "Acta.Pdf" 1024)) initialState)
    = Some "Acta.Pdf".
Proof.
  refine (proj1 (accepted_file_on_screen (mkFile "Acta.Pdf" 1024) initialState _ _)).
  - reflexivity.
  - vm_compute. discriminate.
Defined.

(** X10.  An accepted file replaces whatever was selected before: the
    state it leaves does not depend on an earlier call of
    [validateAndSetFile], accepted or not. *)
Theorem later_selection_wins (earlier f : File) (s : AppState) :
  JsString.endsWith (JsString.toLowerCase (name f)) ".pdf" = true ->
  (size f <= MAX_FILE_SIZE)%N ->
  stateAfter (validateAndSetFile f) (stateAfter (validateAndSetFile earlier) s)
    = stateAfter (validateAndSetFile f) s.
Proof.
  intros Hname Hsize.
  assert (Hok : passesValidation f = true).
  { unfold passesValidation. rewrite Hname.
    destruct (N.ltb_spec MAX_FILE_SIZE (size f)); [lia | reflexivity]. }
  rewrite !validateAndSetFile_state, Hok.
  destruct (passesValidation earlier); reflexivity.
Qed.

Lemma later_selection_wins_witness :
  stateAfter (validateAndSetFile (mkFile "b.pdf" 20))
             (stateAfter (validateAndSetFile (mkFile "a.pdf" 10)) initialState)
    = stateAfter (validateAndSetFile (mkFile "b.pdf" 20)) initialState.
Proof.
  refine (later_selection_wins (mkFile "a.pdf" 10) (mkFile "b.pdf" 20) initialState _ _).
  - reflexivity.
  - vm_compute. discriminate.
Defined.

(** ** Sessions *)

Section SessionFacts.

Variable url : string.

Lemma session_cons (e : Event) (events : list Event) (s : AppState) :
  stateAfter (session url (e :: events)) s
    = stateAfter (session url events) (stateAfter (handle url e) s)
  /\ effectsOf (session url (e :: events)) s
     = effectsOf (handle url e) s
         ++ effectsOf (session url events) (stateAfter (handle url e) s).
Proof.
  change (session url (e :: events))
    with (bind (handle url e) (fun _ => session url events)).
  now rewrite stateAfter_bind, effectsOf_bind.
Qed.

(** A property of states kept by every event holds all along a session,
    and so does a property of effects that every event respects. *)
Lemma session_invariant (P : AppState -> Prop) (Q : Effect -> Prop) :
  (forall e s, P s -> P (stateAfter (handle url e) s)) ->
  (forall e s x, P s -> In x (effectsOf (handle url e) s) -> Q x) ->
  forall events s, P s ->
    P (stateAfter (session url events) s)
    /\ forall x, In x (effectsOf (session url events) s) -> Q x.
Proof.
  intros Hstep Heff events.
  induction events as [|e events IH]; intros s Hs.
  - split; [exact Hs | intros x []].
  - destruct (session_cons e events s) as [-> ->].
    destruct (IH _ (Hstep e s Hs)) as [IHs IHe].
    split; [exact IHs|].
    intros x Hin. apply in_app_or in Hin. destruct Hin as [Hin|Hin].
    + now apply (Heff e s).
    + now apply IHe.
Qed.

Lemma uploadFile_begin_run (s : AppState) :
  uploadFile_begin url s
    = match file s with
      | None => (tt, s, [])
      | Some f =>
          (tt,
           {| file := file s; isDragging := isDragging s; isUploading := true;
              uploadProgress := 0; previewData := previewData s;
              fileInfo := fileInfo s |},
           [AxiosPost (API url ++ "/upload")%string f])
      end.
Proof.
  destruct s as [sf d u p pd fi]. destruct sf; reflexivity.
Qed.

Lemma uploadFile_settle_state (outcome : UploadOutcome) (s : AppState) :
  stateAfter (uploadFile_settle outcome) s
    = match outcome with
      | UploadResolved data =>
          {| file := file s; isDragging := isDragging s; isUploading := false;
             uploadProgress := uploadProgress s;
             previewData := Some (r_preview_data data);
             fileInfo := Some (fileInfoOfResponse data) |}
      | UploadRejected _ =>
          {| file := None; isDragging := isDragging s; isUploading := false;
             uploadProgress := 0; previewData := None; fileInfo := None |}
      end.
Proof. destruct outcome; reflexivity. Qed.

(** The state after one event, case by case. *)
Lemma handle_state (e : Event) (s : AppState) :
  stateAfter (handle url e) s
    = match e with
      | DragOver => stateAfter (setIsDragging true) s
      | DragLeave => stateAfter (setIsDragging false) s
      | Drop [] => stateAfter (setIsDragging false) s
      | Drop (f :: _) =>
          if passesValidation f
          then selectedState f (stateAfter (setIsDragging false) s)
          else stateAfter (setIsDragging false) s
      | FileSelect [] => s
      | FileSelect (f :: _) => if passesValidation f then selectedState f s else s
      | CancelClick => clearedState s
      | UploadClick =>
          match file s with
          | None => s
          | Some _ => stateAfter (setUploadProgress 0) (stateAfter (setIsUploading true) s)
          end
      | UploadProgress percent => stateAfter (setUploadProgress percent) s
      | UploadSettled outcome => stateAfter (uploadFile_settle outcome) s
      | DownloadClick _ => s
      | NewFileClick _ => clearedState s
      end.
Proof.
  destruct e as [| |files|files| | |percent|outcome|popupOpened|outcome];
    cbn [handle]; try reflexivity.
  - unfold stateAfter at 1. rewrite handleDrop_run.
    destruct files as [|f rest]; [reflexivity|]. cbn [fst snd].
    apply validateAndSetFile_state.
  - destruct files as [|f rest]; [reflexivity|].
    apply (validateAndSetFile_state f s).
  - destruct s as [sf d u p pd fi]. destruct sf; reflexivity.
  - unfold stateAfter. rewrite downloadFile_run.
    destruct (fileInfo s) as [fi|]; [destruct (String.eqb (id fi) "")|]; reflexivity.
  - apply deleteFile_state.
Qed.

(** The requests one event can make. *)
Lemma handle_posts (e : Event) (s : AppState) (u : string) (payload : File) :
  In (AxiosPost u payload) (effectsOf (handle url e) s) ->
  e = UploadClick /\ file s = Some payload /\ u = (API url ++ "/upload")%string.
Proof.
  destruct e as [| |files|files| | |percent|outcome|popupOpened|outcome];
    cbn [handle].
  - intros [H|[]]; discriminate H.
  - intros [H|[]]; discriminate H.
  - unfold effectsOf. rewrite handleDrop_run.
    destruct files as [|f rest]; cbn [snd].
    + intros [H|[]]; discriminate H.
    + unfold effectsOf. rewrite validateAndSetFile_run.
      destruct (JsString.endsWith _ _); cbn [negb];
        [destruct (MAX_FILE_SIZE <? size f)%N|]; cbn [snd];
        intros H; repeat (destruct H as [H|H]; [discriminate H|]); destruct H.
  - destruct files as [|f rest]; cbn [handleFileSelect nth_error].
    + intros [].
    + unfold effectsOf. rewrite validateAndSetFile_run.
      destruct (JsString.endsWith _ _); cbn [negb];
        [destruct (MAX_FILE_SIZE <? size f)%N|]; cbn [snd];
        intros H; repeat (destruct H as [H|H]; [discriminate H|]); destruct H.
  - intros [].
  - unfold effectsOf. rewrite uploadFile_begin_run.
    destruct (file s) as [f|]; cbn [snd]; [|intros []].
    intros [[= <- <-]|[]]. repeat split.
  - intros [].
  - destruct outcome; cbn; intros H;
      repeat (destruct H as [H|H]; [discriminate H|]); destruct H.
  - unfold effectsOf. rewrite downloadFile_run.
    destruct (fileInfo s) as [fi|]; [destruct (String.eqb (id fi) "")|];
      cbn [snd]; intros H;
      repeat (destruct H as [H|H];
              [destruct popupOpened; discriminate H|]); destruct H.
  - unfold effectsOf. rewrite deleteFile_run. cbn [snd].
    destruct (fileInfo s) as [fi|]; [destruct (String.eqb (id fi) "")|].
    + intros [].
    + destruct outcome; intros H;
        repeat (destruct H as [H|H]; [discriminate H|]); destruct H.
    + intros [].
Qed.

Lemma passesValidation_spec (f : File) :
  passesValidation f = true
  <-> JsString.endsWith (JsString.toLowerCase (name f)) ".pdf" = true
      /\ (size f <= MAX_FILE_SIZE)%N.
Proof.
  unfold passesValidation. rewrite andb_true_iff, negb_true_iff, N.ltb_ge. tauto.
Qed.

(** The selected file of a state has passed both checks. *)
Lemma handle_keeps_valid_file (e : Event) (s : AppState) :
  (forall f, file s = Some f -> passesValidation f = true) ->
  forall f, file (stateAfter (handle url e) s) = Some f -> passesValidation f = true.
Proof.
  intros Hs f. rewrite handle_state.
  destruct e as [| |files|files| | |percent|outcome|popupOpened|outcome];
    try (apply Hs); try discriminate.
  - destruct files as [|f0 rest]; [apply Hs|].
    destruct (passesValidation f0) eqn:Hok; [|apply Hs].
    cbn. congruence.
  - destruct files as [|f0 rest]; [apply Hs|].
    destruct (passesValidation f0) eqn:Hok; [|apply Hs].
    cbn. congruence.
  - destruct (file s) eqn:Hf; [|rewrite Hf; apply Hs].
    cbn. rewrite Hf. apply Hs.
  - rewrite uploadFile_settle_state. destruct outcome; [apply Hs | discriminate].
Qed.

(** X11.  Whatever the sequence of events since the component was
    mounted, every POST it makes goes to [/api/upload] and carries a file
    whose lowercased name ends in [.pdf] and whose size is at most
    [MAX_FILE_SIZE]: a file that failed validation is never uploaded. *)
Theorem session_posts_only_valid_files
    (events : list Event) (u : string) (payload : File) :
  In (AxiosPost u payload) (effectsOf (session url events) initialState) ->
  u = (API url ++ "/upload")%string
  /\ JsString.endsWith (JsString.toLowerCase (name payload)) ".pdf" = true
  /\ (size payload <= MAX_FILE_SIZE)%N.
Proof.
  intros Hin.
  pose (Q := fun x : Effect =>
               match x with
               | AxiosPost u' p =>
                   u' = (API url ++ "/upload")%string /\ passesValidation p = true
               | _ => True
               end).
  destruct (session_invariant
              (fun s => forall f, file s = Some f -> passesValidation f = true) Q)
    with (events := events) (s := initialState) as [_ Heff].
  - exact handle_keeps_valid_file.
  - intros e s x Hs Hx. destruct x; cbn; trivial.
    apply handle_posts in Hx. destruct Hx as (_ & Hf & ->). auto.
  - discriminate.
  - specialize (Heff _ Hin). cbn in Heff. destruct Heff as [-> Hok].
    apply passesValidation_spec in Hok. tauto.
Qed.

Lemma handle_keeps_pairing (e : Event) (s : AppState) :
  (previewData s = None <-> fileInfo s = None) ->
  (previewData (stateAfter (handle url e) s) = None
   <-> fileInfo (stateAfter (handle url e) s) = None).
Proof.
  intros Hs. rewrite handle_state.
  destruct e as [| |files|files| | |percent|outcome|popupOpened|outcome];
    try exact Hs; try (cbn; tauto).
  - destruct files as [|f0 rest]; [exact Hs|].
    destruct (passesValidation f0); [cbn; tauto | exact Hs].
  - destruct files as [|f0 rest]; [exact Hs|].
    destruct (passesValidation f0); [cbn; tauto | exact Hs].
  - destruct (file s); exact Hs.
  - rewrite uploadFile_settle_state. destruct outcome; cbn; [split; discriminate | tauto].
Qed.

(** X12.  Whatever the sequence of events, preview data and file info are
    present together or absent together; on screen, the file info panel
    and the download buttons appear together, and exactly when the upload
    zone does not. *)
Theorem session_preview_with_file_info (events : list Event) :
  (previewData (stateAfter (session url events) initialState) = None
   <-> fileInfo (stateAfter (session url events) initialState) = None)
  /\ fileInfoPanel (visibleControls (stateAfter (session url events) initialState))
     = downloadActions (visibleControls (stateAfter (session url events) initialState))
  /\ uploadZone (visibleControls (stateAfter (session url events) initialState))
     = negb (fileInfoPanel
               (visibleControls (stateAfter (session url events) initialState))).
Proof.
  destruct (session_invariant
              (fun s => previewData s = None <-> fileInfo s = None)
              (fun _ => True))
    with (events := events) (s := initialState) as [Hpair _].
  - exact handle_keeps_pairing.
  - trivial.
  - cbn. tauto.
  - split; [exact Hpair|].
    unfold visibleControls. cbn [fileInfoPanel downloadActions uploadZone].
    destruct (previewData (stateAfter (session url events) initialState)) as [rows|];
      destruct (fileInfo (stateAfter (session url events) initialState)) as [fi|];
      cbn; try tauto.
    + destruct Hpair as [_ H]. discriminate (H eq_refl).
    + destruct Hpair as [H _]. discriminate (H eq_refl).
Qed.

End SessionFacts.

Lemma session_posts_only_valid_files_witness :
  (API "https://pdftoexc.facore.cloud" ++ "/upload")%string
    = (API "https://pdftoexc.facore.cloud" ++ "/upload")%string
  /\ JsString.endsWith (JsString.toLowerCase (name (mkFile "Informe.PDF" 2048))) ".pdf"
     = true
  /\ (size (mkFile "Informe.PDF" 2048) <= MAX_FILE_SIZE)%N.
Proof.
  refine (session_posts_only_valid_files "https://pdftoexc.facore.cloud"
            [DragOver; Drop [mkFile "Informe.PDF" 2048; mkFile "otro.txt" 1]; UploadClick]
            (API "https://pdftoexc.facore.cloud" ++ "/upload")%string
            (mkFile "Informe.PDF" 2048) _).
  right. right. left. reflexivity.
Defined.

(** ** An upload, event by event *)





(** ** What the user sees after an upload *)

(** X14.  After a successful upload the upload zone and the action
    buttons are gone and the file info and the download buttons are on
    screen; the table is drawn only if the response held at least one
    preview row.  With an empty [preview_data] there are no headers and no
    table, yet the download buttons are shown. *)
Theorem screen_after_success
    (url : string) (progress : list nat) (data : UploadResponse)
    (s : AppState) (f : File) :
  file s = Some f ->
  visibleControls (stateAfter (uploadFile url progress (UploadResolved data)) s)
    = {| uploadZone := false;
         progressBar := false;
         actionButtons := false;
         fileInfoPanel := true;
         previewSection := 0 <? List.length (r_preview_data data);
         downloadActions := true |}
  /\ uploadZoneText (stateAfter (uploadFile url progress (UploadResolved data)) s) = None
  /\ (r_preview_data data = [] ->
      getHeaders (stateAfter (uploadFile url progress (UploadResolved data)) s) = []
      /\ renderPreview (stateAfter (uploadFile url progress (UploadResolved data)) s)
         = None).
Proof.
  intros Hf. unfold stateAfter.
  rewrite (uploadFile_resolved_run url progress data s f Hf). cbn [fst snd].
  split; [reflexivity|]. split; [reflexivity|].
  intros He. unfold getHeaders, renderPreview. cbn [previewData].
  rewrite He. split; reflexivity.
Qed.

Lemma screen_after_success_witness :
  uploadZoneText
    (stateAfter
       (uploadFile "https://pdftoexc.facore.cloud" [100]
          (UploadResolved (mkResponse "v0" "vacio.pdf" "ready" 0 1 [])))
       (selectedState (mkFile "vacio.pdf" 300) initialState))
    = None.
Proof.
  refine (proj1 (proj2 (screen_after_success _ [100]
            (mkResponse "v0" "vacio.pdf" "ready" 0 1 [])
            (selectedState (mkFile "vacio.pdf" 300) initialState)
            (mkFile "vacio.pdf" 300) _))).
  reflexivity.
Defined.

Lemma uploadFile_failure_run
    (url : string) (progress : list nat) (detail : option string)
    (s : AppState) (f : File) :
  file s = Some f ->
  uploadFile url progress (UploadRejected detail) s
    = (tt,
       {| file := None; isDragging := isDragging s; isUploading := false;
          uploadProgress := 0; previewData := None; fileInfo := None |},
       [AxiosPost (API url ++ "/upload")%string f;
        ConsoleError "Upload error:";
        ToastError "Error" (JsString.or_else detail "Error al procesar el archivo")]).
Proof.
  destruct s as [sf d u p pd fi]. cbn [file isDragging]. intros ->.
  unfold uploadFile, bind at 1, readState. cbn [file].
  unfold bind at 1, setIsUploading.
  cbn [file isDragging isUploading uploadProgress previewData fileInfo].
  unfold bind at 1, setUploadProgress at 1.
  cbn [file isDragging isUploading uploadProgress previewData fileInfo].
  unfold bind at 1, emit at 1.
  unfold bind at 1. rewrite forEach_setUploadProgress_last.
  reflexivity.
Qed.

(** X15.  Cancel, New file and a failed upload all bring the screen back
    to the empty upload zone with its prompt: no file name, no action
    buttons, no file info, no table, no download buttons. *)
Theorem back_to_the_prompt
    (url : string) (outcome : DeleteOutcome) (progress : list nat)
    (detail : option string) (s : AppState) :
  (uploadZoneText (stateAfter resetState s)
     = Some (if isDragging s then "Suelta el archivo aquí" else "Arrastra tu PDF aquí")
   /\ visibleControls (stateAfter resetState s)
      = {| uploadZone := true; progressBar := isUploading s; actionButtons := false;
           fileInfoPanel := false; previewSection := false;
           downloadActions := false |})
  /\ (uploadZoneText (stateAfter (deleteFile url outcome) s)
        = Some (if isDragging s then "Suelta el archivo aquí"
                else "Arrastra tu PDF aquí")
      /\ visibleControls (stateAfter (deleteFile url outcome) s)
         = {| uploadZone := true; progressBar := isUploading s; actionButtons := false;
              fileInfoPanel := false; previewSection := false;
              downloadActions := false |})
  /\ (forall f, file s = Some f ->
      uploadZoneText (stateAfter (uploadFile url progress (UploadRejected detail)) s)
        = Some (if isDragging s then "Suelta el archivo aquí"
                else "Arrastra tu PDF aquí")
      /\ visibleControls (stateAfter (uploadFile url progress (UploadRejected detail)) s)
         = {| uploadZone := true; progressBar := false; actionButtons := false;
              fileInfoPanel := false; previewSection := false;
              downloadActions := false |}).
Proof.
  rewrite deleteFile_state. unfold stateAfter at 1 2. rewrite resetState_run.
  cbn [fst snd]. split; [split; reflexivity|]. split; [split; reflexivity|].
  intros f Hf. unfold stateAfter.
  rewrite (uploadFile_failure_run url progress detail s f Hf).
  split; reflexivity.
Qed.

Lemma back_to_the_prompt_witness :
  uploadZoneText
    (stateAfter (uploadFile "https://pdftoexc.facore.cloud" [10]
                   (UploadRejected (Some "El archivo no contiene tablas")))
                (selectedState (mkFile "z.pdf" 5) initialState))
    = Some "Arrastra tu PDF aquí".
Proof.
  refine (proj1 (proj2 (proj2 (back_to_the_prompt "https://pdftoexc.facore.cloud"
            DeleteResolved [10] (Some "El archivo no contiene tablas")
            (selectedState (mkFile "z.pdf" 5) initialState)))
            (mkFile "z.pdf" 5) _)).
  reflexivity.
Defined.

(** ** Column headers *)

Lemma to_uint_nonnil (n : nat) : Nat.to_uint n <> Decimal.Nil.
Proof.
  rewrite <- (DecimalNat.Unsigned.of_to n) at 1.
  rewrite DecimalNat.Unsigned.to_of. apply DecimalFacts.unorm_nonnil.
Qed.

(** Different numbers print differently. *)
Lemma ofNat_inj (n m : nat) : JsString.ofNat n = JsString.ofNat m -> n = m.
Proof.
  unfold JsString.ofNat. intros H.
  apply (f_equal NilZero.uint_of_string) in H.
  rewrite !NilZero.usu in H by apply to_uint_nonnil.
  injection H as H. now apply DecimalNat.Unsigned.to_uint_inj.
Qed.

Lemma NoDup_map_injective {A B} (g : A -> B) (l : list A) :
  (forall x y, g x = g y -> x = y) -> NoDup l -> NoDup (map g l).
Proof.
  intros Hinj Hl. induction Hl as [|x l Hx Hl IH]; cbn [map]; constructor.
  - rewrite in_map_iff. intros (y & Hy & Hin). apply Hinj in Hy. now subst.
  - exact IH.
Qed.

Lemma getHeaders_map (s : AppState) (rows : list Row) :
  previewData s = Some rows ->
  getHeaders s
    = map (fun i => ("Columna " ++ JsString.ofNat (i + 1))%string)
          (seq 0 (list_max (map (@List.length string) rows))).
Proof.
  intros Hrows. unfold getHeaders. rewrite Hrows.
  destruct rows; reflexivity.
Qed.

(** X16.  The headers are [Columna 1], [Columna 2], ... in this order,
    numbered from 1 in decimal, and no two of them are equal. *)
Theorem header_labels (s : AppState) (rows : list Row) :
  previewData s = Some rows ->
  (forall i, i < List.length (getHeaders s) ->
     nth_error (getHeaders s) i = Some ("Columna " ++ JsString.ofNat (i + 1))%string)
  /\ NoDup (getHeaders s).
Proof.
  intros Hrows. rewrite (getHeaders_map s rows Hrows). split.
  - intros i Hi. rewrite length_map, length_seq in Hi.
    rewrite nth_error_map.
    rewrite (nth_error_nth' _ 0) by now rewrite length_seq.
    rewrite seq_nth by exact Hi. reflexivity.
  - apply NoDup_map_injective; [|apply seq_NoDup].
    intros x y H. injection H as H. apply ofNat_inj in H. lia.
Qed.

Lemma header_labels_witness :
  NoDup (getHeaders (mkState None false false 100
                       (Some [["a"; "b"; "c"]; ["d"]])
                       (Some (mkFileInfo "h" "t.pdf" "ready" 2 1)))).
Proof.
  refine (proj2 (header_labels _ [["a"; "b"; "c"]; ["d"]] _)).
  reflexivity.
Defined.
